(** * Exchange ticker adapters: a shallow embedding of [exchange.py]

    The Python module defines a base class [BaseExchange] and three concrete
    adapters, [narkasa], [biconomy] and [toobit].  Each adapter fetches raw
    JSON from an exchange, converts the exchange's own market names to the
    form [BASE/QUOTE] and builds a mapping from symbol to [TickerInfo].

    The embedding keeps the shape of the Python code:
    - decoded JSON and the other Python values the adapters handle are an
      inductive type [pyval]; a [str] is the sequence of its code points
      (code points below 256);
    - a [dict] owned by an adapter is an association list in insertion
      order, with Python's rule for assigning to a key that is present;
    - a raised exception is the [Raise] branch of [Result];
    - a method that awaits the transport or mutates [self] is a function in
      the monad [M], which threads the adapter's fields and the number of
      requests issued so far, and keeps the mutated fields when it raises;
    - [float(...)] is IEEE binary64 with round-to-nearest-even, built on the
      [spec_float] operations of the standard library.

    [print] calls are not modelled. *)

From Stdlib Require Import ZArith List String Ascii Bool Lia PeanoNat.
From Stdlib Require Import Floats.SpecFloat.
Import ListNotations.

Local Open Scope string_scope.
Local Open Scope Z_scope.

(** ** Exceptions and results *)

Inductive exn : Set :=
| Exception        (* raised by [fetch_data] on a response that is not 200 *)
| JSONDecodeError  (* [resp.json()] on a body that is not JSON *)
| TypeError
| ValueError
| KeyError
| AttributeError
| IndexError
| OverflowError.

Inductive Result (A : Type) : Type :=
| Ok (a : A)
| Raise (e : exn).

Arguments Ok {A} a.
Arguments Raise {A} e.

Definition bindR {A B} (r : Result A) (k : A -> Result B) : Result B :=
  match r with
  | Ok a => k a
  | Raise e => Raise e
  end.

Declare Scope result_scope.
Delimit Scope result_scope with result.
Notation "x <- c ; k" := (bindR c (fun x => k))
  (at level 61, c at next level, right associativity) : result_scope.

Definition raises {A} (r : Result A) : bool :=
  match r with Ok _ => false | Raise _ => true end.

(** ** Python values *)

#[local] Set Warnings "-register-all".

Inductive pyval : Type :=
| PNone
| PBool (b : bool)
| PInt (z : Z)
| PFloat (f : spec_float)
| PStr (s : string)
| PList (l : list pyval)
| PDict (d : list (string * pyval)).

(** The dataclass [TickerInfo].  Its annotations are not enforced at run
    time, so a field holds whatever value the constructor was given. *)
Record TickerInfo : Type := mkTickerInfo {
  last : pyval;
  baseVolume : pyval;
  quoteVolume : pyval
}.

(** ** Strings *)

Fixpoint string_to_list (s : string) : list ascii :=
  match s with
  | EmptyString => []
  | String c s' => c :: string_to_list s'
  end.

Fixpoint string_of_list (l : list ascii) : string :=
  match l with
  | [] => EmptyString
  | c :: l' => String c (string_of_list l')
  end.

(** [s.endswith(suffix)] *)
Definition endswith (s suffix : string) : bool :=
  let n := String.length s in
  let k := String.length suffix in
  (k <=? n)%nat && String.eqb (substring (n - k) k s) suffix.

(** [s.replace(old, new)] for a non-empty [old]: occurrences are found from
    left to right and do not overlap.  [skip] counts the characters of an
    occurrence that are still to be dropped. *)
Fixpoint replace_from (old new : string) (skip : nat) (s : string) : string :=
  match s with
  | EmptyString => EmptyString
  | String c s' =>
      match skip with
      | S k => replace_from old new k s'
      | O =>
          if String.prefix old s
          then new ++ replace_from old new (String.length old - 1) s'
          else String c (replace_from old new O s')
      end
  end.

Definition replace (s old new : string) : string := replace_from old new O s.

(** ** Truth value and [==] against a str *)

Definition float_is_zero (f : spec_float) : bool :=
  match f with S754_zero _ => true | _ => false end.

Definition truthy (v : pyval) : bool :=
  match v with
  | PNone => false
  | PBool b => b
  | PInt z => negb (z =? 0)
  | PFloat f => negb (float_is_zero f)
  | PStr s => negb (String.eqb s "")
  | PList l => match l with [] => false | _ => true end
  | PDict d => match d with [] => false | _ => true end
  end.

(** [v == s] where [s] is a str: only an equal str compares equal. *)
Definition eq_str (v : pyval) (s : string) : bool :=
  match v with
  | PStr t => String.eqb t s
  | _ => false
  end.

(** ** [float]

    A Python float is an IEEE binary64 number: precision 53, [emax] 1024. *)

Definition prec : Z := 53.
Definition emax : Z := 1024.

(** The float nearest to the integer [z] (ties to even). *)
Definition float_of_Z (z : Z) : spec_float := binary_normalize prec emax z 0 false.

(** [float(z)] for an int: [OverflowError] when [z] is too large. *)
Definition float_of_int (z : Z) : Result spec_float :=
  match float_of_Z z with
  | S754_infinity _ => Raise OverflowError
  | f => Ok f
  end.

(** The float nearest to [m * 10^e], for [m >= 0], with the sign [neg].  For
    a negative [e] the quotient [m / 10^(-e)] is rounded once, from the
    integer quotient and the position of the remainder. *)
Definition float_of_decimal (neg : bool) (m e : Z) : spec_float :=
  if m =? 0 then S754_zero neg
  else if 0 <=? e then binary_normalize prec emax (if neg then - (m * 10 ^ e) else m * 10 ^ e) 0 neg
  else
    let '(q, e', l) := SFdiv_core_binary prec emax m 0 (10 ^ (- e)) 0 in
    binary_round_aux prec emax neg q e' l.

(** The whitespace [float] ignores around the text: tab, LF, VT, FF, CR and
    space, and of the code points from 128 on the spaces U+0085 and U+00A0.
    The separators U+001C to U+001F are not among them. *)
Definition is_space (c : ascii) : bool :=
  let n := nat_of_ascii c in
  ((9 <=? n) && (n <=? 13) || (n =? 32) || (n =? 133) || (n =? 160))%nat.

Definition digit_of (c : ascii) : option Z :=
  let n := Z.of_nat (nat_of_ascii c) in
  if (48 <=? n) && (n <=? 57) then Some (n - 48) else None.

Definition lower (c : ascii) : ascii :=
  let n := nat_of_ascii c in
  if ((65 <=? n) && (n <=? 90))%nat then ascii_of_nat (n + 32) else c.

Fixpoint lstrip (l : list ascii) : list ascii :=
  match l with
  | c :: l' => if is_space c then lstrip l' else l
  | [] => []
  end.

Definition strip (l : list ascii) : list ascii := rev (lstrip (rev (lstrip l))).

(** A digit part of the float grammar, [digit (["_"] digit)*], read after
    the digits accumulated in [acc]; [cnt] counts the digits read. *)
Fixpoint digitpart (l : list ascii) (acc : Z) (cnt : nat) : Z * nat * list ascii :=
  match l with
  | c :: l' =>
      match digit_of c with
      | Some d => digitpart l' (10 * acc + d) (S cnt)
      | None =>
          match cnt, l' with
          | S _, c' :: l'' =>
              match Ascii.eqb c "_", digit_of c' with
              | true, Some d => digitpart l'' (10 * acc + d) (S cnt)
              | _, _ => (acc, cnt, l)
              end
          | _, _ => (acc, cnt, l)
          end
      end
  | [] => (acc, cnt, l)
  end.

Definition take_sign (l : list ascii) : bool * list ascii :=
  match l with
  | c :: l' =>
      if Ascii.eqb c "-" then (true, l')
      else if Ascii.eqb c "+" then (false, l')
      else (false, l)
  | [] => (false, l)
  end.

(** The exponent part, [("e" | "E") [sign] digitpart], if there is one. *)
Definition exponent (l : list ascii) : option (Z * list ascii) :=
  match l with
  | [] => Some (0, [])
  | c :: l' =>
      if Ascii.eqb (lower c) "e" then
        let '(neg, l1) := take_sign l' in
        let '(x, cnt, l2) := digitpart l1 0 O in
        match cnt with
        | O => None
        | S _ => Some (if neg then - x else x, l2)
        end
      else None
  end.

(** [number [exponent]] of the float grammar, where
    [number ::= [digitpart] "." digitpart | digitpart ["."]]. *)
Definition floatnumber (neg : bool) (l : list ascii) : option spec_float :=
  let '(ip, icnt, l1) := digitpart l 0 O in
  let '(fp, fcnt, l2) :=
    match l1 with
    | c :: l1' => if Ascii.eqb c "." then digitpart l1' 0 O else (0, O, l1)
    | [] => (0, O, l1)
    end in
  match icnt, fcnt with
  | O, O => None
  | _, _ =>
      match exponent l2 with
      | Some (x, []) =>
          Some (float_of_decimal neg (ip * 10 ^ Z.of_nat fcnt + fp) (x - Z.of_nat fcnt))
      | _ => None
      end
  end.

(** [float(s)] for a str: surrounding whitespace is ignored, the text is an
    optionally signed [inf], [infinity], [nan] (in any case) or a decimal
    number; anything else raises [ValueError]. *)
Definition float_of_str (s : string) : Result spec_float :=
  let '(neg, l) := take_sign (strip (string_to_list s)) in
  let w := string_of_list (map lower l) in
  if String.eqb w "inf" || String.eqb w "infinity" then Ok (S754_infinity neg)
  else if String.eqb w "nan" then Ok S754_nan
  else
    match floatnumber neg l with
    | Some f => Ok f
    | None => Raise ValueError
    end.

Definition py_float (v : pyval) : Result spec_float :=
  match v with
  | PStr s => float_of_str s
  | PInt z => float_of_int z
  | PBool b => Ok (float_of_Z (if b then 1 else 0))
  | PFloat f => Ok f
  | PNone | PList _ | PDict _ => Raise TypeError
  end.

(** ** Numbers: [+] and [==] across int, bool and float *)

(** The int a bool or an int stands for in arithmetic. *)
Definition as_int (v : pyval) : option Z :=
  match v with
  | PBool b => Some (if b then 1 else 0)
  | PInt z => Some z
  | _ => None
  end.

(** The exact value of a finite float as [m * 2^e]. *)
Definition float_exact (f : spec_float) : option (Z * Z) :=
  match f with
  | S754_zero _ => Some (0, 0)
  | S754_finite s m e => Some (if s then Zneg m else Zpos m, e)
  | S754_infinity _ | S754_nan => None
  end.

(** [z == f] for an int and a float compares the exact values. *)
Definition int_eq_float (z : Z) (f : spec_float) : bool :=
  match float_exact f with
  | Some (m, e) => if 0 <=? e then z =? m * 2 ^ e else z * 2 ^ (- e) =? m
  | None => false
  end.

(** [a + b] on the values JSON decoding produces. *)
Definition py_add (a b : pyval) : Result pyval :=
  match a, b with
  | PStr s, PStr t => Ok (PStr (s ++ t))
  | PList l, PList k => Ok (PList (l ++ k))
  | PFloat f, PFloat g => Ok (PFloat (SFadd prec emax f g))
  | PFloat f, (PInt _ | PBool _) =>
      match as_int b with
      | Some z => (g <- float_of_int z ; Ok (PFloat (SFadd prec emax f g)))%result
      | None => Raise TypeError
      end
  | (PInt _ | PBool _), PFloat g =>
      match as_int a with
      | Some z => (f <- float_of_int z ; Ok (PFloat (SFadd prec emax f g)))%result
      | None => Raise TypeError
      end
  | (PInt _ | PBool _), (PInt _ | PBool _) =>
      match as_int a, as_int b with
      | Some x, Some y => Ok (PInt (x + y))
      | _, _ => Raise TypeError
      end
  | _, _ => Raise TypeError
  end.

(** [s + v] where [s] is a str. *)
Definition str_add (s : string) (v : pyval) : Result string :=
  match v with
  | PStr t => Ok (s ++ t)
  | _ => Raise TypeError
  end.

(** ** Reading decoded JSON *)

Fixpoint assoc {V} (k : string) (d : list (string * V)) : option V :=
  match d with
  | [] => None
  | (k', v) :: d' => if String.eqb k k' then Some v else assoc k d'
  end.

(** [v.get(k, default)]: only a dict has the method. *)
Definition py_get (v : pyval) (k : string) (default : pyval) : Result pyval :=
  match v with
  | PDict d => Ok (match assoc k d with Some x => x | None => default end)
  | _ => Raise AttributeError
  end.

(** [v[k]] with a str [k]. *)
Definition getitem_str (v : pyval) (k : string) : Result pyval :=
  match v with
  | PDict d => match assoc k d with Some x => Ok x | None => Raise KeyError end
  | _ => Raise TypeError
  end.

(** [v[0]].  A decoded JSON object has str keys only, so [0] is never a key
    of it. *)
Definition getitem_0 (v : pyval) : Result pyval :=
  match v with
  | PList (x :: _) => Ok x
  | PList [] => Raise IndexError
  | PStr (String c _) => Ok (PStr (String c EmptyString))
  | PStr EmptyString => Raise IndexError
  | PDict _ => Raise KeyError
  | PNone | PBool _ | PInt _ | PFloat _ => Raise TypeError
  end.

(** The elements [for x in v] visits: the items of a list, the keys of a
    dict, the characters of a str. *)
Definition py_iter (v : pyval) : Result (list pyval) :=
  match v with
  | PList l => Ok l
  | PDict d => Ok (map (fun kv => PStr (fst kv)) d)
  | PStr s => Ok (map (fun c => PStr (String c EmptyString)) (string_to_list s))
  | PNone | PBool _ | PInt _ | PFloat _ => Raise TypeError
  end.

(** ** Dicts owned by the adapters

    Keys are compared as Python compares them: a str equals the same str,
    [None] equals [None], and bools, ints and floats are equal when their
    values are.  A key is also found when it is the same object: the JSON
    decoder has one object for every NaN of a payload, so a NaN key equals a
    NaN key although [nan == nan] is false.  A list or a dict is not
    hashable. *)

Definition pydict (V : Type) : Type := list (pyval * V).

Definition hashable (k : pyval) : bool :=
  match k with
  | PList _ | PDict _ => false
  | _ => true
  end.

Definition float_is_nan (f : spec_float) : bool :=
  match f with S754_nan => true | _ => false end.

Definition key_eqb (a b : pyval) : bool :=
  match a, b with
  | PNone, PNone => true
  | PStr s, PStr t => String.eqb s t
  | PFloat f, PFloat g => SFeqb f g || (float_is_nan f && float_is_nan g)
  | PFloat f, (PInt _ | PBool _) =>
      match as_int b with Some z => int_eq_float z f | None => false end
  | (PInt _ | PBool _), PFloat g =>
      match as_int a with Some z => int_eq_float z g | None => false end
  | (PInt _ | PBool _), (PInt _ | PBool _) =>
      match as_int a, as_int b with Some x, Some y => x =? y | _, _ => false end
  | _, _ => false
  end.

Fixpoint dict_lookup {V} (k : pyval) (d : pydict V) : option V :=
  match d with
  | [] => None
  | (k', v) :: d' => if key_eqb k k' then Some v else dict_lookup k d'
  end.

(** Assignment to a key: the value of a key that is present is replaced
    where it stands (the dict keeps the key it has), a new key goes last. *)
Fixpoint dict_insert {V} (k : pyval) (v : V) (d : pydict V) : pydict V :=
  match d with
  | [] => [(k, v)]
  | (k', v') :: d' =>
      if key_eqb k k' then (k', v) :: d' else (k', v') :: dict_insert k v d'
  end.

(** [d[k] = v] *)
Definition setitem {V} (d : pydict V) (k : pyval) (v : V) : Result (pydict V) :=
  if hashable k then Ok (dict_insert k v d) else Raise TypeError.

(** [d.values()] *)
Definition dict_values {V} (d : pydict V) : list V := map snd d.

(** [d.update(other)] *)
Definition dict_update {V} (d other : pydict V) : pydict V :=
  fold_left (fun acc kv => dict_insert (fst kv) (snd kv) acc) other d.

(** ** The transport and the monad of the adapter methods *)

Record response : Type := mkResponse {
  status : Z;
  body : option pyval   (* [None]: the body does not decode as JSON *)
}.

(** The exchange, as seen through [aiohttp]: the reply to the [n]-th request
    of a run, for the URL requested.  Every request gets a reply; a request
    that fails shows as a status other than 200 or as a body that does not
    decode. *)
Definition Transport : Type := nat -> string -> response.

Definition M (S A : Type) : Type := S -> nat -> Result A * S * nat.

Definition ret {S A} (a : A) : M S A := fun s n => (Ok a, s, n).

Definition bind {S A B} (c : M S A) (k : A -> M S B) : M S B :=
  fun s n =>
    match c s n with
    | (Ok a, s', n') => k a s' n'
    | (Raise e, s', n') => (Raise e, s', n')
    end.

Definition lift {S A} (r : Result A) : M S A := fun s n => (r, s, n).

Definition get_self {S} : M S S := fun s n => (Ok s, s, n).

Definition put_self {S} (s' : S) : M S unit := fun _ n => (Ok tt, s', n).

Declare Scope monad_scope.
Delimit Scope monad_scope with monad.
Notation "x <- c ;; k" := (bind c (fun x => k))
  (at level 61, c at next level, right associativity) : monad_scope.
Notation "c ;; k" := (bind c (fun _ => k))
  (at level 61, right associativity) : monad_scope.

Section BaseExchange.
Variable T : Transport.
Context {S : Type}.

(** [BaseExchange.fetch_data] *)
Definition fetch_data (url : string) : M S pyval :=
  fun s n =>
    let resp := T n url in
    (if status resp =? 200
     then match body resp with
          | Some data => Ok data
          | None => Raise JSONDecodeError
          end
     else Raise Exception,
     s, Datatypes.S n).
End BaseExchange.

(** [for x in l: body(x)] *)
Fixpoint for_each {S A} (l : list A) (body : A -> M S unit) : M S unit :=
  match l with
  | [] => ret tt
  | x :: l' => (body x ;; for_each l' body)%monad
  end.

(** ** class narkasa *)

Module narkasa.

(** The fields [__init__] creates and the methods assign; [id],
    [base_url] and [code_ok] are never assigned again. *)
Record self : Type := mkSelf {
  markets : pydict pyval;   (* {market: symbol} pairs *)
  symbols : pydict pyval    (* {symbol: market} pairs *)
}.

Definition id : string := "narkasa".
Definition base_url : string := "https://api.narkasa.com/".
Definition code_ok : string := "00000".

Definition init : self := {| markets := []; symbols := [] |}.

Definition _convert_symbol_to_ccxt (self : self) (sym : pyval) : Result pyval :=
  match sym with
  | PStr _ =>
      match dict_lookup sym (symbols self) with
      | Some market => Ok market
      | None => Raise ValueError
      end
  | _ => Raise TypeError
  end.

Definition normalize_data (self : self) (data : pyval) : Result (pydict TickerInfo) :=
  (ticker <- py_get data "market" (PDict []) ;
   native <- py_get ticker "symbol" (PStr "") ;
   symbol <- _convert_symbol_to_ccxt self native ;
   l <- py_get ticker "last" (PInt 0) ;
   last <- py_float l ;
   b <- py_get ticker "volumeQty" (PInt 0) ;
   baseVolume <- py_float b ;
   q <- py_get ticker "volume" (PInt 0) ;
   quoteVolume <- py_float q ;
   setitem [] symbol
     (mkTickerInfo (PFloat last) (PFloat baseVolume) (PFloat quoteVolume)))%result.

Section Methods.
Variable T : Transport.

(** The body of the loop of [load_markets]. *)
Definition register (symbol : pyval) : M self unit :=
  (base <- lift (py_get symbol "firstSymbol" PNone) ;;
   quote <- lift (py_get symbol "secondSymbol" PNone) ;;
   symbol_name <- lift (py_get symbol "symbol" PNone) ;;
   if truthy base && truthy quote then
     b <- lift (py_add base (PStr "/")) ;;
     market <- lift (py_add b quote) ;;
     s <- get_self ;;
     m <- lift (setitem (markets s) market symbol_name) ;;
     put_self {| markets := m; symbols := symbols s |} ;;
     s <- get_self ;;
     y <- lift (setitem (symbols s) symbol_name market) ;;
     put_self {| markets := markets s; symbols := y |}
   else ret tt)%monad.

Definition load_markets : M self unit :=
  (s <- get_self ;;
   put_self {| markets := []; symbols := symbols s |} ;;
   s <- get_self ;;
   put_self {| markets := markets s; symbols := [] |} ;;
   data <- fetch_data T (base_url ++ "v3/api/market/markets") ;;
   code <- lift (py_get data "code" PNone) ;;
   if negb (eq_str code code_ok) then ret tt
   else
     listed <- lift (py_get data "markets" (PList [])) ;;
     items <- lift (py_iter listed) ;;
     for_each items register)%monad.

(** The loop of [fetch_tickers] over [self.markets.values()], with the
    local [result]. *)
Fixpoint fetch_each (values : list pyval) (result : pydict TickerInfo)
  : M self (pydict TickerInfo) :=
  match values with
  | [] => ret result
  | symbol :: rest =>
      (url <- lift (str_add (base_url ++ "v3/api/market/24h?symbol=") symbol) ;;
       data <- fetch_data T url ;;
       code <- lift (getitem_str data "code") ;;
       if eq_str code code_ok then
         s <- get_self ;;
         one <- lift (normalize_data s data) ;;
         fetch_each rest (dict_update result one)
       else fetch_each rest result)%monad
  end.

Definition fetch_tickers : M self (pydict TickerInfo) :=
  (s <- get_self ;;
   (if negb (match markets s with [] => false | _ => true end)
    then load_markets else ret tt) ;;
   s <- get_self ;;
   fetch_each (dict_values (markets s)) [])%monad.
End Methods.

End narkasa.

(** ** class biconomy *)

Module biconomy.

Record self : Type := mkSelf {
  markets : pydict pyval   (* not really needed, just a stub *)
}.

Definition id : string := "biconomy".
Definition base_url : string := "https://www.biconomy.com/".

Definition init : self := {| markets := [] |}.

Definition _convert_symbol_to_ccxt (sym : pyval) : Result pyval :=
  match sym with
  | PStr s => Ok (PStr (replace s "_" "/"))
  | _ => Raise TypeError
  end.

(** The loop of [normalize_data] with the local [normalized_data]. *)
Fixpoint normalize_each (tickers : list pyval) (normalized_data : pydict TickerInfo)
  : Result (pydict TickerInfo) :=
  match tickers with
  | [] => Ok normalized_data
  | ticker :: rest =>
      (native <- py_get ticker "symbol" (PStr "") ;
       symbol <- _convert_symbol_to_ccxt native ;
       l <- py_get ticker "last" (PInt 0) ;
       last <- py_float l ;
       b <- py_get ticker "vol" (PInt 0) ;
       baseVolume <- py_float b ;
       d <- setitem normalized_data symbol
              (mkTickerInfo (PFloat last) (PFloat baseVolume) (PInt 0)) ;
       normalize_each rest d)%result
  end.

Definition normalize_data (data : pyval) : Result (pydict TickerInfo) :=
  (tickers <- py_get data "ticker" (PList []) ;
   items <- py_iter tickers ;
   normalize_each items [])%result.

Section Methods.
Variable T : Transport.

Definition fetch_tickers : M self (pydict TickerInfo) :=
  (data <- fetch_data T (base_url ++ "api/v1/tickers") ;;
   lift (normalize_data data))%monad.

(** [BaseExchange.load_markets] is inherited: its body is a docstring. *)
Definition load_markets : M self unit := ret tt.
End Methods.

End biconomy.

(** ** class toobit *)

Module toobit.

Record self : Type := mkSelf {
  markets : pydict pyval
}.

Definition id : string := "toobit".
Definition base_url : string := "https://api.toobit.com/".

Definition init : self := {| markets := [] |}.

Definition _convert_symbol_to_ccxt (sym : pyval) : Result pyval :=
  match sym with
  | PStr s =>
      if endswith s "USDT" then Ok (PStr (replace s "USDT" "/USDT"))
      else Ok (PStr s)
  | _ => Raise TypeError
  end.

Definition normalize_data (data : pyval) : Result (pydict TickerInfo) :=
  (result <- getitem_0 data ;
   native <- py_get result "s" PNone ;
   symbol <- _convert_symbol_to_ccxt native ;
   c <- py_get result "c" (PInt 0) ;
   last <- py_float c ;
   v <- py_get result "v" (PInt 0) ;
   baseVolume <- py_float v ;
   q <- py_get result "qv" (PInt 0) ;
   quoteVolume <- py_float q ;
   setitem [] symbol
     (mkTickerInfo (PFloat last) (PFloat baseVolume) (PFloat quoteVolume)))%result.

Section Methods.
Variable T : Transport.

(** The body of the loop of [load_markets].  In the assignment the
    right-hand side [base + quote] is evaluated before the key. *)
Definition register (symbol : pyval) : M self unit :=
  (base <- lift (getitem_str symbol "baseAsset") ;;
   quote <- lift (getitem_str symbol "quoteAsset") ;;
   if truthy base && truthy quote then
     value <- lift (py_add base quote) ;;
     b <- lift (py_add base (PStr "/")) ;;
     key <- lift (py_add b quote) ;;
     s <- get_self ;;
     m <- lift (setitem (markets s) key value) ;;
     put_self {| markets := m |}
   else ret tt)%monad.

Definition load_markets : M self unit :=
  (data <- fetch_data T (base_url ++ "api/v1/exchangeInfo") ;;
   listed <- lift (py_get data "symbols" (PList [])) ;;
   items <- lift (py_iter listed) ;;
   for_each items register)%monad.

Fixpoint fetch_each (values : list pyval) (result : pydict TickerInfo)
  : M self (pydict TickerInfo) :=
  match values with
  | [] => ret result
  | symbol :: rest =>
      (url <- lift (str_add (base_url ++ "quote/v1/ticker/24hr?symbol=") symbol) ;;
       data <- fetch_data T url ;;
       one <- lift (normalize_data data) ;;
       fetch_each rest (dict_update result one))%monad
  end.

Definition fetch_tickers : M self (pydict TickerInfo) :=
  (s <- get_self ;;
   (if negb (match markets s with [] => false | _ => true end)
    then load_markets else ret tt) ;;
   s <- get_self ;;
   fetch_each (dict_values (markets s)) [])%monad.
End Methods.

End toobit.

(** ** The canonical symbol form

    [symbol_re s] decides whether the whole of [s] matches
    [^[A-Z0-9]+/[A-Z0-9]+$]. *)

Definition is_upper_or_digit (c : ascii) : bool :=
  let n := nat_of_ascii c in
  ((65 <=? n) && (n <=? 90) || (48 <=? n) && (n <=? 57))%nat.

(** [run s] is the length of the longest prefix of [s] made of characters
    of [[A-Z0-9]], and what follows it. *)
Fixpoint run (s : string) : nat * string :=
  match s with
  | String c s' =>
      if is_upper_or_digit c then let '(n, r) := run s' in (S n, r) else (O, s)
  | EmptyString => (O, s)
  end.

Definition symbol_re (s : string) : bool :=
  match run s with
  | (S _, String c r) =>
      Ascii.eqb c "/" &&
      match run r with
      | (S _, EmptyString) => true
      | _ => false
      end
  | _ => false
  end.

(** ** Sample payloads and transports *)

Definition http_ok (data : pyval) : response := mkResponse 200 (Some data).

(** A per-symbol reply of narkasa: [{"code": code, "market": {...}}]. *)
Definition narkasa_ticker (code native last_ volumeQty volume : string) : pyval :=
  PDict [("code", PStr code);
         ("market", PDict [("symbol", PStr native); ("last", PStr last_);
                           ("volumeQty", PStr volumeQty); ("volume", PStr volume)])].

(** An entry of narkasa's market listing. *)
Definition narkasa_market (first second native : string) : pyval :=
  PDict [("firstSymbol", PStr first); ("secondSymbol", PStr second);
         ("symbol", PStr native)].

Definition narkasa_listing (code : string) (entries : list pyval) : pyval :=
  PDict [("code", PStr code); ("markets", PList entries)].

(** A narkasa adapter after discovery of BTC/USDT, ETH/USDT and LTC/USDT. *)
Definition narkasa_ready : narkasa.self :=
  {| narkasa.markets := [(PStr "BTC/USDT", PStr "BTCUSDT");
                         (PStr "ETH/USDT", PStr "ETHUSDT");
                         (PStr "LTC/USDT", PStr "LTCUSDT")];
     narkasa.symbols := [(PStr "BTCUSDT", PStr "BTC/USDT");
                         (PStr "ETHUSDT", PStr "ETH/USDT");
                         (PStr "LTCUSDT", PStr "LTC/USDT")] |}.

Definition narkasa_natives : list string := ["BTCUSDT"; "ETHUSDT"; "LTCUSDT"].

Definition narkasa_ticker_url (native : string) : string :=
  narkasa.base_url ++ "v3/api/market/24h?symbol=" ++ native.

(** The second request is answered with status 500. *)
Definition second_request_500 : Transport :=
  fun n url =>
    match n with
    | 0%nat => http_ok (narkasa_ticker "00000" "BTCUSDT" "57000" "11328" "3456789")
    | 1%nat => mkResponse 500 None
    | _ => http_ok (narkasa_ticker "00000" "LTCUSDT" "70" "900" "63000")
    end.

(** The replies of a run in which the exchange signals an error code for
    the second symbol. *)
Definition sample_data (i : nat) : pyval :=
  match i with
  | 0%nat => narkasa_ticker "00000" "BTCUSDT" "57000" "11328" "3456789"
  | 1%nat => PDict [("code", PStr "40004"); ("message", PStr "market closed")]
  | _ => narkasa_ticker "00000" "LTCUSDT" "70" "900" "63000"
  end.

Definition sample_sym (i : nat) : string :=
  match i with
  | 0%nat => "BTC/USDT"
  | 1%nat => "ETH/USDT"
  | _ => "LTC/USDT"
  end.

Definition sample_tick (i : nat) : TickerInfo :=
  match i with
  | 0%nat => mkTickerInfo (PFloat (float_of_Z 57000)) (PFloat (float_of_Z 11328))
               (PFloat (float_of_Z 3456789))
  | _ => mkTickerInfo (PFloat (float_of_Z 70)) (PFloat (float_of_Z 900))
           (PFloat (float_of_Z 63000))
  end.

Definition second_symbol_error_code : Transport :=
  fun n url => http_ok (sample_data n).

(** A listing answered with an application code other than ["00000"]. *)
Definition listing_refused : Transport :=
  fun n url =>
    http_ok (narkasa_listing "50000" [narkasa_market "BTC" "USDT" "BTCUSDT"]).

(** A listing in which one native name is given to two markets and one
    market is given two native names. *)
Definition listing_colliding : Transport :=
  fun n url =>
    http_ok (narkasa_listing "00000"
               [narkasa_market "BTC" "USDT" "BTCUSDT";
                narkasa_market "ETH" "USDT" "BTCUSDT";
                narkasa_market "ETH" "USDT" "ETHUSDT"]).

Definition listing_plain_entries : list pyval :=
  [narkasa_market "BTC" "USDT" "BTCUSDT"; narkasa_market "ETH" "USDT" "ETHUSDT"].

Definition listing_plain_body : list (string * pyval) :=
  [("code", PStr "00000"); ("markets", PList listing_plain_entries)].

Definition listing_plain : Transport := fun n url => http_ok (PDict listing_plain_body).

(** The bulk payload [{"ticker":[{"symbol":"eth_btc","last":"4026","vol":"4567"}]}]. *)
Definition bulk_payload : pyval :=
  PDict [("ticker",
          PList [PDict [("symbol", PStr "eth_btc"); ("last", PStr "4026");
                        ("vol", PStr "4567")]])].

(** toobit: a registry left by an earlier discovery, and a listing that no
    longer has that market. *)
Definition toobit_stale : toobit.self :=
  {| toobit.markets := [(PStr "OLD/USDT", PStr "OLDUSDT")] |}.

Definition toobit_listing (entries : list pyval) : Transport :=
  fun n url => http_ok (PDict [("symbols", PList entries)]).

Definition toobit_btc : pyval :=
  PDict [("baseAsset", PStr "BTC"); ("quoteAsset", PStr "USDT")].

(** An entry of toobit's listing without the [baseAsset] field. *)
Definition toobit_no_base : pyval := PDict [("quoteAsset", PStr "USDT")].

(** A per-symbol reply of toobit: a list with one ticker object. *)
Definition toobit_reply (fields : list (string * pyval)) : pyval := PList [PDict fields].

(** The ticker of a reply whose last price is [null] and which has no
    quote volume. *)
Definition ticker_null_last : list (string * pyval) :=
  [("s", PStr "BTCUSDT"); ("c", PNone); ("v", PStr "11328")].

(** A ticker whose last price is text that is not a number. *)
Definition ticker_text_last : list (string * pyval) :=
  [("s", PStr "BTCUSDT"); ("c", PStr "n/a")].

(** A ticker without last price and without quote volume. *)
Definition ticker_base_only : list (string * pyval) :=
  [("s", PStr "BTCUSDT"); ("v", PStr "11328")].

Definition narkasa_base_only : list (string * pyval) :=
  [("symbol", PStr "BTCUSDT"); ("volumeQty", PStr "11328")].

(** ** Predicates used in the statements *)

(** The number [normalize_data] reads from the field [key] of a ticker
    object: [f] is [float] of the field, or [0.0] if the ticker has no such
    field. *)
Definition reads_number (ticker : list (string * pyval)) (key : string)
           (f : spec_float) : Prop :=
  match assoc key ticker with
  | Some x => py_float x = Ok f
  | None => f = S754_zero false
  end.

(** What [narkasa.load_markets] registers for an entry of the listing: the
    market [base + "/" + quote] and the native name, when [firstSymbol] and
    [secondSymbol] are non-empty strs. *)
Definition narkasa_listed (entry : pyval) : option (string * pyval) :=
  match py_get entry "firstSymbol" PNone,
        py_get entry "secondSymbol" PNone,
        py_get entry "symbol" PNone with
  | Ok (PStr base), Ok (PStr quote), Ok symbol_name =>
      if truthy (PStr base) && truthy (PStr quote)
      then Some ((base ++ "/") ++ quote, symbol_name)
      else None
  | _, _, _ => None
  end.

(** No market of the listing is given two different native names. *)
Definition one_name_per_market (entries : list pyval) : Prop :=
  forall e1 e2 market name1 name2,
    In e1 entries -> In e2 entries ->
    narkasa_listed e1 = Some (market, name1) ->
    narkasa_listed e2 = Some (market, name2) ->
    name1 = name2.

(** The invariant of the loop of [narkasa.load_markets]: every str key of
    [symbols] maps to a market that [markets] maps back to that key, and the
    pair comes from an entry of the listing. *)
Definition paired (entries : list pyval) (s : narkasa.self) : Prop :=
  forall native market,
    dict_lookup (PStr native) (narkasa.symbols s) = Some market ->
    dict_lookup market (narkasa.markets s) = Some (PStr native) /\
    exists e m, In e entries /\ narkasa_listed e = Some (m, PStr native) /\
                market = PStr m.

(** The mapping [fetch_tickers] builds from the first [n] replies of a run
    in which the reply number [j] is left out: reply [i] contributes the
    entry [sym i : tick i]. *)
Definition merged (sym : nat -> string) (tick : nat -> TickerInfo) (j n : nat)
  : pydict TickerInfo :=
  map (fun i => (PStr (sym i), tick i)) (filter (fun i => negb (i =? j)%nat) (seq 0 n)).

(** ** [main]

    [main] builds a [narkasa], awaits [load_markets] and [fetch_tickers],
    prints the tickers and asserts that the result is a dict from [Symbol]
    (that is, [str]) to [TickerInfo].  The mapping is a dict of [TickerInfo]
    by its type here, so the assertion that can fail is the one on the
    keys. *)

Inductive main_outcome : Type :=
| Finished (tickers : pydict TickerInfo)
| Raised (e : exn)
| AssertionFailed.

(** [isinstance(v, str)] *)
Definition is_str (v : pyval) : bool :=
  match v with
  | PStr _ => true
  | _ => false
  end.

Definition main (T : Transport) : main_outcome :=
  match (narkasa.load_markets T ;; narkasa.fetch_tickers T)%monad narkasa.init 0%nat with
  | (Raise e, _, _) => Raised e
  | (Ok tickers, _, _) =>
      if forallb (fun kv => is_str (fst kv)) tickers
      then Finished tickers
      else AssertionFailed
  end.

(** ** More predicates used in the statements *)

(** [sub in s] for two strs. *)
Fixpoint contains (sub s : string) : bool :=
  String.prefix sub s ||
  match s with
  | EmptyString => false
  | String _ s' => contains sub s'
  end.

(** The character-by-character reading of [s.replace("_", "/")]. *)
Fixpoint slash_for_underscore (s : string) : string :=
  match s with
  | EmptyString => EmptyString
  | String c s' =>
      String (if Ascii.eqb c "_" then "/"%char else c) (slash_for_underscore s')
  end.

(** Every value that [symbols] holds is a str and a key of [markets]. *)
Definition closed (s : narkasa.self) : Prop :=
  forall k m, In (k, m) (narkasa.symbols s) ->
    exists t, m = PStr t /\ dict_lookup (PStr t) (narkasa.markets s) <> None.

(** Every entry of toobit's registry has the shape that [load_markets]
    writes: the key is [base + "/" + quote] and the value [base + quote],
    for non-empty [base] and [quote]. *)
Definition toobit_entry (kv : pyval * pyval) : Prop :=
  exists base quote,
    base <> EmptyString /\ quote <> EmptyString /\
    fst kv = PStr ((base ++ "/") ++ quote) /\ snd kv = PStr (base ++ quote).

(** A reply that [fetch_data] turns into an exception: a status other than
    200, or a body that does not decode. *)
Definition failed (r : response) : bool :=
  negb (status r =? 200) || match body r with Some _ => false | None => true end.

(** ** More sample inputs *)

(** A toobit adapter after discovery of BTC/USDT and ETH/USDT, and an
    exchange that answers every request with the same ticker. *)
Definition toobit_ready : toobit.self :=
  {| toobit.markets := [(PStr "BTC/USDT", PStr "BTCUSDT");
                        (PStr "ETH/USDT", PStr "ETHUSDT")] |}.

Definition toobit_answers : Transport :=
  fun n url => http_ok (toobit_reply [("s", PStr "BTCUSDT"); ("c", PStr "57000")]).

(** A listing of narkasa whose second entry is not an object. *)
Definition listing_broken_entries : list pyval :=
  [narkasa_market "BTC" "USDT" "BTCUSDT"; PStr "LTCUSDT";
   narkasa_market "ETH" "USDT" "ETHUSDT"].

Definition listing_broken : Transport :=
  fun n url => http_ok (narkasa_listing "00000" listing_broken_entries).

(** The same listing cut before that entry. *)
Definition listing_cut : Transport :=
  fun n url => http_ok (narkasa_listing "00000" [narkasa_market "BTC" "USDT" "BTCUSDT"]).

(** The plain listing of narkasa with an entry that has no [secondSymbol]
    between its two entries. *)
Definition entry_no_quote : list (string * pyval) :=
  [("firstSymbol", PStr "XRP"); ("symbol", PStr "XRPUSDT")].

Definition listing_gap_body : list (string * pyval) :=
  [("code", PStr "00000");
   ("markets", PList [narkasa_market "BTC" "USDT" "BTCUSDT"; PDict entry_no_quote;
                      narkasa_market "ETH" "USDT" "ETHUSDT"])].

Definition listing_gap : Transport := fun n url => http_ok (PDict listing_gap_body).

(** The URL of the per-symbol request of toobit. *)
Definition toobit_ticker_url (native : string) : string :=
  toobit.base_url ++ "quote/v1/ticker/24hr?symbol=" ++ native.

(** Exchanges that answer the ticker requests as [second_symbol_error_code]
    and [toobit_answers] do, and every listing request with status 500. *)
Definition narkasa_tickers_only : Transport :=
  fun n url =>
    if String.eqb url (narkasa.base_url ++ "v3/api/market/markets")
    then mkResponse 500 None
    else second_symbol_error_code n url.

Definition toobit_tickers_only : Transport :=
  fun n url =>
    if String.eqb url (toobit.base_url ++ "api/v1/exchangeInfo")
    then mkResponse 500 None
    else toobit_answers n url.

(** A bulk payload of biconomy with two tickers. *)
Definition bulk_two : list pyval :=
  [PDict [("symbol", PStr "BTC_USDT"); ("last", PStr "57000"); ("vol", PStr "11328")];
   PDict [("symbol", PStr "ETH_BTC"); ("last", PStr "4026")]].

(** * Properties *)

Local Open Scope nat_scope.

(** ** The model on the examples of the module *)

Example float_of_str_4026 :
  float_of_str "4026" = Ok (float_of_Z 4026) /\
  float_of_Z 4026 = S754_finite false (4026 * 2 ^ 41) (-41).
Proof. split; reflexivity. Qed.

Example float_of_str_forms :
  float_of_str " 1_0.5e-1 " = float_of_str "1.05" /\
  float_of_str "0.1" = Ok (S754_finite false 7205759403792794 (-56)) /\
  float_of_str "-Infinity" = Ok (S754_infinity true) /\
  float_of_str "1e400" = Ok (S754_infinity false) /\
  float_of_str "" = Raise ValueError /\
  float_of_str "1_" = Raise ValueError /\
  py_float (PInt (10 ^ 400)) = Raise OverflowError /\
  py_float PNone = Raise TypeError.
Proof. repeat split; reflexivity. Qed.

(** Whitespace around the text is ignored; the separator U+001C is not
    whitespace for [float]. *)
Example float_of_str_whitespace :
  float_of_str (String (ascii_of_nat 9) "1 ") = Ok (float_of_Z 1) /\
  float_of_str (String (ascii_of_nat 160) "1") = Ok (float_of_Z 1) /\
  float_of_str (String (ascii_of_nat 28) "1") = Raise ValueError /\
  float_of_str (String "1" (String (ascii_of_nat 31) "")) = Raise ValueError.
Proof. repeat split; reflexivity. Qed.

(** [toobit]: the per-symbol payload
    [[{"s":"BTCUSDT","c":"57000","v":"11328","qv":"3456789"}]]. *)
Example toobit_normalize_example :
  toobit.normalize_data
    (toobit_reply [("s", PStr "BTCUSDT"); ("c", PStr "57000"); ("v", PStr "11328");
                   ("qv", PStr "3456789")]) =
  Ok [(PStr "BTC/USDT",
       mkTickerInfo (PFloat (float_of_Z 57000)) (PFloat (float_of_Z 11328))
         (PFloat (float_of_Z 3456789)))].
Proof. reflexivity. Qed.

(** [narkasa]: discovery of the plain listing, then conversion of a native
    name by lookup. *)
Example narkasa_discovery_example :
  exists s,
    narkasa.load_markets listing_plain narkasa.init 0 = (Ok tt, s, 1) /\
    narkasa._convert_symbol_to_ccxt s (PStr "BTCUSDT") = Ok (PStr "BTC/USDT") /\
    narkasa._convert_symbol_to_ccxt s (PStr "XRPUSDT") = Raise ValueError /\
    narkasa._convert_symbol_to_ccxt s PNone = Raise TypeError.
Proof. eexists. repeat split. Qed.

(** ** Basic facts about the Python operations *)

Lemma eq_str_true (v : pyval) (s : string) : eq_str v s = true <-> v = PStr s.
Proof.
  destruct v; simpl; split; intro H; try discriminate.
  - apply String.eqb_eq in H. now subst.
  - injection H as ->. apply String.eqb_refl.
Qed.

Lemma eq_str_false (v : pyval) (s : string) : eq_str v s = false <-> v <> PStr s.
Proof.
  split.
  - intros H E. apply eq_str_true in E. congruence.
  - intro H. destruct (eq_str v s) eqn:E; [|reflexivity].
    apply eq_str_true in E. contradiction.
Qed.

Lemma key_eqb_str_refl (n : string) : key_eqb (PStr n) (PStr n) = true.
Proof. simpl. apply String.eqb_refl. Qed.

Lemma key_eqb_str_l (n : string) (k : pyval) :
  key_eqb (PStr n) k = true -> k = PStr n.
Proof.
  destruct k; simpl; try discriminate.
  intro H. apply String.eqb_eq in H. now subst.
Qed.

Lemma key_eqb_str_r (n : string) (k : pyval) :
  key_eqb k (PStr n) = true -> k = PStr n.
Proof.
  destruct k; simpl; try discriminate.
  intro H. apply String.eqb_eq in H. now subst.
Qed.

Lemma key_eqb_str_neq (n m : string) : n <> m -> key_eqb (PStr n) (PStr m) = false.
Proof. intro H. simpl. now apply String.eqb_neq. Qed.

(** [a + "..."] succeeds for a str [a] only. *)
Lemma py_add_str_r (a : pyval) (s : string) (r : pyval) :
  py_add a (PStr s) = Ok r -> exists t, a = PStr t /\ r = PStr (t ++ s).
Proof.
  destruct a; simpl; try discriminate.
  intro H. injection H as <-. eauto.
Qed.

Lemma py_add_str_l (t : string) (b r : pyval) :
  py_add (PStr t) b = Ok r -> exists u, b = PStr u /\ r = PStr (t ++ u).
Proof.
  destruct b; simpl; try discriminate.
  intro H. injection H as <-. eauto.
Qed.

(** [float(0)] is [0.0]. *)
Lemma py_float_zero : py_float (PInt 0) = Ok (S754_zero false).
Proof. reflexivity. Qed.

(** ** Dicts *)

Section DictFacts.
Context {V : Type}.

(** Reading a str key after an assignment. *)
Lemma lookup_insert_str (n : string) (k : pyval) (v : V) (d : pydict V) :
  dict_lookup (PStr n) (dict_insert k v d) =
  if key_eqb (PStr n) k then Some v else dict_lookup (PStr n) d.
Proof.
  induction d as [|[k' v'] d IH]; cbn [dict_lookup dict_insert].
  - reflexivity.
  - destruct (key_eqb k k') eqn:Ekk'; cbn [dict_lookup dict_insert].
    + destruct (key_eqb (PStr n) k') eqn:Enk'.
      * apply key_eqb_str_l in Enk'. subst k'.
        apply key_eqb_str_r in Ekk'. subst k.
        now rewrite key_eqb_str_refl.
      * destruct (key_eqb (PStr n) k) eqn:Enk; [|reflexivity].
        apply key_eqb_str_l in Enk. subst k.
        apply key_eqb_str_l in Ekk'. subst k'.
        rewrite key_eqb_str_refl in Enk'. discriminate.
    + rewrite IH.
      destruct (key_eqb (PStr n) k') eqn:Enk'; [|reflexivity].
      destruct (key_eqb (PStr n) k) eqn:Enk; [|reflexivity].
      apply key_eqb_str_l in Enk. subst k.
      apply key_eqb_str_l in Enk'. subst k'.
      rewrite key_eqb_str_refl in Ekk'. discriminate.
Qed.

(** Assigning to a str key that is absent appends the entry. *)
Lemma insert_absent_str (n : string) (v : V) (d : pydict V) :
  dict_lookup (PStr n) d = None -> dict_insert (PStr n) v d = (d ++ [(PStr n, v)])%list.
Proof.
  induction d as [|[k' v'] d IH]; cbn [dict_lookup dict_insert app]; intro H.
  - reflexivity.
  - destruct (key_eqb (PStr n) k'); [discriminate|].
    now rewrite IH.
Qed.

Lemma lookup_app_absent (k : pyval) (d e : pydict V) :
  dict_lookup k d = None -> dict_lookup k (d ++ e)%list = dict_lookup k e.
Proof.
  induction d as [|[k' v'] d IH]; simpl; intro H.
  - reflexivity.
  - destruct (key_eqb k k'); [discriminate|]. now apply IH.
Qed.

(** An assignment keeps a property that the new value and all the values
    already stored have. *)
Lemma insert_Forall (P : V -> Prop) (k : pyval) (v : V) (d : pydict V) :
  P v -> Forall (fun kv => P (snd kv)) d ->
  Forall (fun kv => P (snd kv)) (dict_insert k v d).
Proof.
  intros Hv. induction 1 as [|[k' v'] d Hx Hd IH]; simpl.
  - constructor; [exact Hv | constructor].
  - destruct (key_eqb k k'); constructor; auto.
Qed.
End DictFacts.

(** ** Running the monad *)

Lemma fetch_data_ok {S} (T : Transport) (url : string) (s : S) (n : nat) (data : pyval) :
  T n url = http_ok data -> fetch_data T url s n = (Ok data, s, Datatypes.S n).
Proof. intro H. unfold fetch_data. now rewrite H. Qed.

(** ** Symbol conversion *)

(** C3. The pattern codecs do not produce the canonical form for every str
    they accept.  [biconomy] turns ["eth_btc"] into ["eth/btc"]: the
    separator is replaced and the case is left as it is, although the
    docstring of [_convert_symbol_to_ccxt] asks for all characters in
    uppercase.  [toobit] returns ["ETHBTC"] unchanged, with no separator.
    Neither result matches [^[A-Z0-9]+/[A-Z0-9]+$]. *)
Theorem pattern_codecs_leave_symbols_uncanonical :
  biconomy._convert_symbol_to_ccxt (PStr "eth_btc") = Ok (PStr "eth/btc") /\
  symbol_re "eth/btc" = false /\
  toobit._convert_symbol_to_ccxt (PStr "ETHBTC") = Ok (PStr "ETHBTC") /\
  symbol_re "ETHBTC" = false.
Proof. repeat split; reflexivity. Qed.

(** ** Normalisation of a bulk payload *)

(** C4. On the payload
    [{"ticker":[{"symbol":"eth_btc","last":"4026","vol":"4567"}]}] the
    biconomy adapter returns one entry with the prices and volumes of the
    scenario, but under the key ["eth/btc"]: the mapping has no entry for
    ["ETH/BTC"]. *)
Theorem biconomy_bulk_scenario_key_is_lowercase :
  exists result,
    biconomy.normalize_data bulk_payload = Ok result /\
    result =
      [(PStr "eth/btc",
        mkTickerInfo (PFloat (float_of_Z 4026)) (PFloat (float_of_Z 4567)) (PInt 0))] /\
    dict_lookup (PStr "ETH/BTC") result = None.
Proof. eexists. repeat split. Qed.

(** [quoteVolume] of every entry that [normalize_each] adds is the int [0]. *)
Lemma normalize_each_quote_zero (tickers : list pyval) :
  forall acc result,
    Forall (fun kv => quoteVolume (snd kv) = PInt 0) acc ->
    biconomy.normalize_each tickers acc = Ok result ->
    Forall (fun kv => quoteVolume (snd kv) = PInt 0) result.
Proof.
  induction tickers as [|ticker rest IH]; intros acc result Hacc H; simpl in H.
  - now injection H as <-.
  - destruct (py_get ticker "symbol" (PStr "")) as [native|] eqn:E1; [|discriminate].
    cbn [bindR] in H.
    destruct (biconomy._convert_symbol_to_ccxt native) as [symbol|] eqn:E2; [|discriminate].
    cbn [bindR] in H.
    destruct (py_get ticker "last" (PInt 0)) as [l|] eqn:E3; [|discriminate].
    cbn [bindR] in H.
    destruct (py_float l) as [lastv|] eqn:E4; [|discriminate].
    cbn [bindR] in H.
    destruct (py_get ticker "vol" (PInt 0)) as [b|] eqn:E5; [|discriminate].
    cbn [bindR] in H.
    destruct (py_float b) as [basev|] eqn:E6; [|discriminate].
    cbn [bindR] in H.
    unfold setitem in H.
    destruct (hashable symbol); [|discriminate].
    cbn [bindR] in H.
    eapply IH; [|exact H].
    apply (insert_Forall (fun t => quoteVolume t = PInt 0)); [reflexivity | exact Hacc].
Qed.

(** C10. Whatever payload [biconomy.normalize_data] accepts, every
    [TickerInfo] of the mapping it returns has [quoteVolume] equal to [0]. *)
Theorem biconomy_quote_volume_always_zero (data : pyval) (result : pydict TickerInfo) :
  biconomy.normalize_data data = Ok result ->
  forall symbol ticker, In (symbol, ticker) result -> quoteVolume ticker = PInt 0.
Proof.
  unfold biconomy.normalize_data. intros H symbol ticker Hin.
  destruct (py_get data "ticker" (PList [])) as [tickers|]; [|discriminate].
  cbn [bindR] in H.
  destruct (py_iter tickers) as [items|]; [|discriminate].
  cbn [bindR] in H.
  apply normalize_each_quote_zero in H; [|constructor].
  rewrite Forall_forall in H. exact (H (symbol, ticker) Hin).
Qed.

Lemma biconomy_quote_volume_always_zero_witness :
  let ticker :=
    mkTickerInfo (PFloat (float_of_Z 4026)) (PFloat (float_of_Z 4567)) (PInt 0) in
  biconomy.normalize_data bulk_payload = Ok [(PStr "eth/btc", ticker)] /\
  In (PStr "eth/btc", ticker) [(PStr "eth/btc", ticker)] /\
  quoteVolume ticker = PInt 0.
Proof.
  intro ticker.
  assert (H : biconomy.normalize_data bulk_payload = Ok [(PStr "eth/btc", ticker)])
    by reflexivity.
  assert (Hin : In (PStr "eth/btc", ticker) [(PStr "eth/btc", ticker)])
    by (left; reflexivity).
  split; [exact H | split; [exact Hin|]].
  exact (biconomy_quote_volume_always_zero bulk_payload _ H (PStr "eth/btc") ticker Hin).
Defined.

(** ** Discovery *)

(** [narkasa.load_markets] starts by emptying both dicts, so what it leaves
    does not depend on what the registry held before: discovery from any
    two registries, answered with the same reply, ends in the same registry. *)
Lemma narkasa_load_markets_forgets (T : Transport) (s s' : narkasa.self) (n : nat) :
  narkasa.load_markets T s n = narkasa.load_markets T s' n.
Proof. reflexivity. Qed.

(** For narkasa an entry of the listing without a [firstSymbol] or a
    [secondSymbol] field is passed over: nothing is raised, nothing is
    registered. *)
Lemma narkasa_register_skips_incomplete (entry : list (string * pyval))
      (s : narkasa.self) (n : nat) :
  assoc "firstSymbol" entry = None \/ assoc "secondSymbol" entry = None ->
  narkasa.register (PDict entry) s n = (Ok tt, s, n).
Proof.
  intros [H|H]; unfold narkasa.register; cbv [bind lift py_get]; rewrite H.
  - reflexivity.
  - cbn [truthy]. now rewrite andb_false_r.
Qed.

(** For toobit the same entry raises [KeyError]. *)
Lemma toobit_register_raises_incomplete (entry : list (string * pyval))
      (s : toobit.self) (n : nat) :
  assoc "baseAsset" entry = None ->
  toobit.register (PDict entry) s n = (Raise KeyError, s, n).
Proof.
  intro H. unfold toobit.register. cbv [bind lift getitem_str]. now rewrite H.
Qed.

(** A turn of the loop of [toobit.load_markets] never removes a key. *)
Lemma toobit_register_keeps (entry : pyval) (s s' : toobit.self) (n n' : nat)
      (r : Result unit) (key : string) :
  toobit.register entry s n = (r, s', n') ->
  dict_lookup (PStr key) (toobit.markets s) <> None ->
  dict_lookup (PStr key) (toobit.markets s') <> None.
Proof.
  unfold toobit.register. cbv [bind lift get_self put_self ret].
  destruct (getitem_str entry "baseAsset") as [base|];
    [|intro H; now injection H as _ <- _].
  destruct (getitem_str entry "quoteAsset") as [quote|];
    [|intro H; now injection H as _ <- _].
  destruct (truthy base && truthy quote); [|intro H; now injection H as _ <- _].
  destruct (py_add base quote) as [value|]; [|intro H; now injection H as _ <- _].
  destruct (py_add base (PStr "/")) as [b|]; [|intro H; now injection H as _ <- _].
  destruct (py_add b quote) as [k|]; [|intro H; now injection H as _ <- _].
  unfold setitem. destruct (hashable k); [|intro H; now injection H as _ <- _].
  intro H. injection H as _ <- _. cbn [toobit.markets].
  rewrite lookup_insert_str. destruct (key_eqb (PStr key) k); [discriminate | trivial].
Qed.

Lemma toobit_for_each_keeps (l : list pyval) (key : string) :
  forall s s' n n' r,
    for_each l toobit.register s n = (r, s', n') ->
    dict_lookup (PStr key) (toobit.markets s) <> None ->
    dict_lookup (PStr key) (toobit.markets s') <> None.
Proof.
  induction l as [|e l IH]; intros s s' n n' r H Hk.
  - cbv in H. now injection H as _ <- _.
  - cbn [for_each] in H. unfold bind at 1 in H.
    destruct (toobit.register e s n) as [[[u|x] s1] n1] eqn:Er.
    + apply (IH _ _ _ _ _ H). exact (toobit_register_keeps _ _ _ _ _ _ _ Er Hk).
    + injection H as _ <- _. exact (toobit_register_keeps _ _ _ _ _ _ _ Er Hk).
Qed.

(** Whatever the listing, a market that [toobit]'s registry holds before
    [load_markets] is still in it afterwards. *)
Lemma toobit_load_markets_keeps (T : Transport) (s s' : toobit.self) (n n' : nat)
      (r : Result unit) (key : string) :
  toobit.load_markets T s n = (r, s', n') ->
  dict_lookup (PStr key) (toobit.markets s) <> None ->
  dict_lookup (PStr key) (toobit.markets s') <> None.
Proof.
  unfold toobit.load_markets. unfold bind at 1.
  destruct (fetch_data T _ s n) as [[[data|x] s0] n0] eqn:Ef.
  - assert (s0 = s) as ->.
    { unfold fetch_data in Ef. now injection Ef as _ <- _. }
    unfold bind at 1. unfold lift at 1.
    destruct (py_get data "symbols" (PList [])) as [listed|];
      [|intro H; now injection H as _ <- _].
    unfold bind at 1. unfold lift at 1.
    destruct (py_iter listed) as [items|]; [|intro H; now injection H as _ <- _].
    apply toobit_for_each_keeps.
  - intro H. injection H as _ <- _.
    unfold fetch_data in Ef. now injection Ef as _ <- _.
Qed.

(** C5. [toobit.load_markets] never empties [self.markets]: after a
    discovery whose listing has BTC/USDT only, a registry that held
    OLD/USDT still holds it, next to the new market; no listing removes it
    ([toobit_load_markets_keeps]).  [narkasa.load_markets] does empty its
    dicts first ([narkasa_load_markets_forgets]). *)
Theorem toobit_load_markets_keeps_stale_market :
  toobit.load_markets (toobit_listing [toobit_btc]) toobit_stale 0 =
    (Ok tt,
     {| toobit.markets := [(PStr "OLD/USDT", PStr "OLDUSDT");
                           (PStr "BTC/USDT", PStr "BTCUSDT")] |},
     1%nat) /\
  toobit.load_markets (toobit_listing [toobit_btc]) toobit.init 0 =
    (Ok tt, {| toobit.markets := [(PStr "BTC/USDT", PStr "BTCUSDT")] |}, 1%nat).
Proof. split; reflexivity. Qed.

(** C8. [toobit.load_markets] reads [symbol["baseAsset"]] with a subscript:
    an entry without that field raises [KeyError], discovery stops there
    and the complete entry that follows is not registered. *)
Theorem toobit_load_markets_raises_on_incomplete_entry :
  toobit.load_markets (toobit_listing [toobit_no_base; toobit_btc]) toobit.init 0 =
    (Raise KeyError, toobit.init, 1%nat).
Proof. reflexivity. Qed.

(** C2, as stated, fails: a listing answered with the code ["50000"] makes
    [narkasa.load_markets] return normally; no exception reaches the
    caller. *)
Lemma narkasa_load_markets_refused_returns :
  narkasa.load_markets listing_refused narkasa_ready 0 = (Ok tt, narkasa.init, 1%nat) /\
  raises (fst (fst (narkasa.load_markets listing_refused narkasa_ready 0))) = false.
Proof. split; reflexivity. Qed.

(** C2, amended.  When the listing is answered with a JSON object whose
    [code] is not ["00000"], [narkasa.load_markets] returns without raising
    and leaves both dicts of the registry empty, whatever they held. *)
Theorem narkasa_load_markets_refused_clears (T : Transport) (s : narkasa.self) (n : nat)
        (reply : list (string * pyval)) :
  T n (narkasa.base_url ++ "v3/api/market/markets") = http_ok (PDict reply) ->
  assoc "code" reply <> Some (PStr narkasa.code_ok) ->
  narkasa.load_markets T s n = (Ok tt, narkasa.init, Datatypes.S n).
Proof.
  intros HT Hcode.
  unfold narkasa.load_markets.
  cbv [bind get_self put_self lift ret fetch_data].
  rewrite HT. cbn [status body http_ok Z.eqb Pos.eqb py_get].
  assert (E : eq_str (match assoc "code" reply with Some x => x | None => PNone end)
                narkasa.code_ok = false).
  { apply eq_str_false. destruct (assoc "code" reply); congruence. }
  rewrite E. reflexivity.
Qed.

Lemma narkasa_load_markets_refused_clears_witness :
  listing_refused 0%nat (narkasa.base_url ++ "v3/api/market/markets") =
    http_ok (narkasa_listing "50000" [narkasa_market "BTC" "USDT" "BTCUSDT"]) /\
  narkasa.load_markets listing_refused narkasa_ready 0 = (Ok tt, narkasa.init, 1%nat).
Proof.
  split; [reflexivity|].
  apply (narkasa_load_markets_refused_clears listing_refused narkasa_ready 0
           [("code", PStr "50000");
            ("markets", PList [narkasa_market "BTC" "USDT" "BTCUSDT"])]).
  - reflexivity.
  - simpl. discriminate.
Defined.

(** ** Normalisation of a single ticker *)

Lemma reads_number_get (ticker : list (string * pyval)) (key : string) (f : spec_float) :
  reads_number ticker key f ->
  (x <- py_get (PDict ticker) key (PInt 0) ; py_float x)%result = Ok f.
Proof.
  unfold reads_number, py_get. cbn [bindR].
  destruct (assoc key ticker); [trivial|].
  intros ->. reflexivity.
Qed.

Lemma toobit_convert_str (native : string) :
  exists symbol, toobit._convert_symbol_to_ccxt (PStr native) = Ok (PStr symbol).
Proof.
  unfold toobit._convert_symbol_to_ccxt.
  destruct (endswith native "USDT"); eauto.
Qed.

Lemma toobit_convert_ok (native symbol : pyval) :
  toobit._convert_symbol_to_ccxt native = Ok symbol -> hashable symbol = true.
Proof.
  destruct native; simpl; try discriminate.
  destruct (endswith s "USDT"); intro H; injection H as <-; reflexivity.
Qed.

(** The steps of [toobit.normalize_data] after the first element has been
    read. *)
Lemma toobit_normalize_fields (ticker : list (string * pyval)) (rest : list pyval)
      (symbol : pyval) (lastv basev quotev : spec_float) :
  toobit._convert_symbol_to_ccxt
    (match assoc "s" ticker with Some x => x | None => PNone end) = Ok symbol ->
  reads_number ticker "c" lastv ->
  reads_number ticker "v" basev ->
  reads_number ticker "qv" quotev ->
  toobit.normalize_data (PList (PDict ticker :: rest)) =
    Ok [(symbol, mkTickerInfo (PFloat lastv) (PFloat basev) (PFloat quotev))].
Proof.
  intros Hs Hc Hv Hq.
  apply reads_number_get in Hc, Hv, Hq.
  unfold toobit.normalize_data. cbn [getitem_0 bindR].
  cbn [py_get bindR] in *.
  rewrite Hs. cbn [bindR].
  destruct (py_float _) as [c|] in Hc |- *; [|discriminate]. injection Hc as ->.
  cbn [bindR].
  destruct (py_float _) as [v|] in Hv |- *; [|discriminate]. injection Hv as ->.
  cbn [bindR].
  destruct (py_float _) as [q|] in Hq |- *; [|discriminate]. injection Hq as ->.
  cbn [bindR].
  unfold setitem. rewrite (toobit_convert_ok _ _ Hs). reflexivity.
Qed.

(** C7, as stated, fails: a ticker without quote volume whose symbol
    converts, but whose last price is [null], makes [normalize_data] raise
    [TypeError]. *)
Lemma normalize_null_last_raises :
  assoc "qv" ticker_null_last = None /\
  toobit._convert_symbol_to_ccxt (PStr "BTCUSDT") = Ok (PStr "BTC/USDT") /\
  toobit.normalize_data (toobit_reply ticker_null_last) = Raise TypeError.
Proof. repeat split; reflexivity. Qed.

(** C7, amended.  Take a ticker object that has no quote-volume field,
    whose symbol converts, and whose last-price and base-volume fields are
    each absent or a value [float] accepts.  Then [normalize_data] returns
    one entry: [quoteVolume] is [0.0], [baseVolume] is the float of the
    base-volume field, and an absent last price or base volume reads as
    [0.0].  This holds for [narkasa] (fields [last], [volumeQty], [volume]
    of the object under [market]) and for [toobit] (fields [c], [v], [qv] of
    the first element). *)
Theorem normalize_defaults_absent_fields :
  (forall (s : narkasa.self) (reply ticker : list (string * pyval))
          (symbol : string) (lastv basev : spec_float),
      py_get (PDict reply) "market" (PDict []) = Ok (PDict ticker) ->
      assoc "volume" ticker = None ->
      narkasa._convert_symbol_to_ccxt s
        (match assoc "symbol" ticker with Some x => x | None => PStr "" end)
        = Ok (PStr symbol) ->
      reads_number ticker "last" lastv ->
      reads_number ticker "volumeQty" basev ->
      narkasa.normalize_data s (PDict reply) =
        Ok [(PStr symbol,
             mkTickerInfo (PFloat lastv) (PFloat basev) (PFloat (S754_zero false)))]) /\
  (forall (ticker : list (string * pyval)) (rest : list pyval)
          (symbol : pyval) (lastv basev : spec_float),
      assoc "qv" ticker = None ->
      toobit._convert_symbol_to_ccxt
        (match assoc "s" ticker with Some x => x | None => PNone end) = Ok symbol ->
      reads_number ticker "c" lastv ->
      reads_number ticker "v" basev ->
      toobit.normalize_data (PList (PDict ticker :: rest)) =
        Ok [(symbol,
             mkTickerInfo (PFloat lastv) (PFloat basev) (PFloat (S754_zero false)))]).
Proof.
  split.
  - intros s reply ticker symbol lastv basev Hm Hq Hs Hl Hb.
    apply reads_number_get in Hl, Hb.
    unfold narkasa.normalize_data. rewrite Hm. cbn [bindR].
    cbn [py_get bindR] in *.
    rewrite Hs. cbn [bindR].
    destruct (py_float _) as [l|] in Hl |- *; [|discriminate]. injection Hl as ->.
    cbn [bindR].
    destruct (py_float _) as [b|] in Hb |- *; [|discriminate]. injection Hb as ->.
    cbn [bindR].
    rewrite Hq. reflexivity.
  - intros ticker rest symbol lastv basev Hq Hs Hc Hv.
    apply toobit_normalize_fields; try assumption.
    unfold reads_number. now rewrite Hq.
Qed.

Lemma normalize_defaults_absent_fields_witness :
  narkasa.normalize_data narkasa_ready (PDict [("market", PDict narkasa_base_only)]) =
    Ok [(PStr "BTC/USDT",
         mkTickerInfo (PFloat (S754_zero false)) (PFloat (float_of_Z 11328))
           (PFloat (S754_zero false)))] /\
  toobit.normalize_data (toobit_reply ticker_base_only) =
    Ok [(PStr "BTC/USDT",
         mkTickerInfo (PFloat (S754_zero false)) (PFloat (float_of_Z 11328))
           (PFloat (S754_zero false)))].
Proof.
  split.
  - apply (proj1 normalize_defaults_absent_fields narkasa_ready
             [("market", PDict narkasa_base_only)] narkasa_base_only "BTC/USDT"
             (S754_zero false) (float_of_Z 11328));
      reflexivity.
  - apply (proj2 normalize_defaults_absent_fields ticker_base_only []
             (PStr "BTC/USDT") (S754_zero false) (float_of_Z 11328));
      reflexivity.
Defined.

(** C9, as stated, fails: the payload [[{"s":"BTCUSDT","c":"n/a"}]] is a
    non-empty list whose first element has a str symbol, and
    [toobit.normalize_data] raises [ValueError] on it. *)
Lemma toobit_normalize_text_last_raises :
  assoc "s" ticker_text_last = Some (PStr "BTCUSDT") /\
  toobit.normalize_data (PList [PDict ticker_text_last]) = Raise ValueError.
Proof. split; reflexivity. Qed.

(** C9, amended.  [toobit.normalize_data] reads [data[0]] unguarded.  For a
    list payload whose first element is an object with a str symbol and
    whose [c], [v] and [qv] fields are each absent or a value [float]
    accepts, it returns a mapping with exactly one entry, built from the
    first element alone; on the empty list the element access raises
    [IndexError]. *)
Theorem toobit_normalize_reads_first_element :
  (forall (ticker : list (string * pyval)) (rest : list pyval) (native : string)
          (lastv basev quotev : spec_float),
      assoc "s" ticker = Some (PStr native) ->
      reads_number ticker "c" lastv ->
      reads_number ticker "v" basev ->
      reads_number ticker "qv" quotev ->
      exists symbol,
        toobit._convert_symbol_to_ccxt (PStr native) = Ok (PStr symbol) /\
        toobit.normalize_data (PList (PDict ticker :: rest)) =
          Ok [(PStr symbol, mkTickerInfo (PFloat lastv) (PFloat basev) (PFloat quotev))]) /\
  toobit.normalize_data (PList []) = Raise IndexError.
Proof.
  split; [|reflexivity].
  intros ticker rest native lastv basev quotev Hs Hc Hv Hq.
  destruct (toobit_convert_str native) as [symbol Hsym].
  exists symbol. split; [exact Hsym|].
  apply toobit_normalize_fields; try assumption.
  now rewrite Hs.
Qed.

Lemma toobit_normalize_reads_first_element_witness :
  (exists symbol,
     toobit._convert_symbol_to_ccxt (PStr "BTCUSDT") = Ok (PStr symbol) /\
     toobit.normalize_data (PList [PDict ticker_base_only; PNone]) =
       Ok [(PStr symbol,
            mkTickerInfo (PFloat (S754_zero false)) (PFloat (float_of_Z 11328))
              (PFloat (S754_zero false)))]) /\
  toobit.normalize_data (PList []) = Raise IndexError.
Proof.
  split.
  - apply (proj1 toobit_normalize_reads_first_element ticker_base_only [PNone]
             "BTCUSDT" (S754_zero false) (float_of_Z 11328) (S754_zero false));
      reflexivity.
  - exact (proj2 toobit_normalize_reads_first_element).
Defined.

(** ** The registry of narkasa after discovery *)

(** One turn of the loop of [narkasa.load_markets] that does not raise
    either registers the pair [narkasa_listed] describes, in both dicts, or
    leaves the registry as it is. *)
Lemma narkasa_register_ok (entry : pyval) (s s' : narkasa.self) (n n' : nat) :
  narkasa.register entry s n = (Ok tt, s', n') ->
  n' = n /\
  match narkasa_listed entry with
  | Some (market, name) =>
      hashable name = true /\
      s' = {| narkasa.markets := dict_insert (PStr market) name (narkasa.markets s);
              narkasa.symbols := dict_insert name (PStr market) (narkasa.symbols s) |}
  | None => s' = s
  end.
Proof.
  unfold narkasa.register, narkasa_listed.
  destruct entry as [| | | | |l|d]; try (cbv; discriminate).
  cbv [bind lift py_get get_self put_self ret].
  set (base := match assoc "firstSymbol" d with Some x => x | None => PNone end).
  set (quote := match assoc "secondSymbol" d with Some x => x | None => PNone end).
  set (name := match assoc "symbol" d with Some x => x | None => PNone end).
  destruct (truthy base && truthy quote) eqn:Et.
  - apply andb_true_iff in Et. destruct Et as [Eb Eq].
    destruct (py_add base (PStr "/")) as [b|] eqn:E1; [|discriminate].
    apply py_add_str_r in E1. destruct E1 as (sb & -> & ->).
    destruct (py_add (PStr (sb ++ "/")) quote) as [market|] eqn:E2; [|discriminate].
    apply py_add_str_l in E2. destruct E2 as (sq & -> & ->).
    rewrite Eb, Eq. cbn [andb].
    unfold setitem. cbn [hashable narkasa.markets narkasa.symbols].
    destruct (hashable name); [|discriminate].
    intro H. injection H as <- <-. auto.
  - intro H. injection H as <- <-. split; [reflexivity|].
    destruct base; try reflexivity.
    destruct quote; try reflexivity.
    now rewrite Et.
Qed.

Section RoundTrip.
Variable entries : list pyval.
Hypothesis Hone : one_name_per_market entries.

Lemma paired_init : paired entries narkasa.init.
Proof. intros native market H. discriminate. Qed.

Lemma paired_register (e : pyval) (s s' : narkasa.self) (n n' : nat) :
  In e entries -> paired entries s ->
  narkasa.register e s n = (Ok tt, s', n') -> paired entries s'.
Proof.
  intros Hin Hs Hreg. apply narkasa_register_ok in Hreg. destruct Hreg as [_ Hreg].
  destruct (narkasa_listed e) as [[m name]|] eqn:El; [|now subst].
  destruct Hreg as [_ ->]. intros native market.
  cbn [narkasa.markets narkasa.symbols]. rewrite lookup_insert_str.
  destruct (key_eqb (PStr native) name) eqn:Ek.
  - apply key_eqb_str_l in Ek. subst name. intro H. injection H as <-.
    split.
    + rewrite lookup_insert_str. now rewrite key_eqb_str_refl.
    + exists e, m. auto.
  - intro H. destruct (Hs _ _ H) as (Hback & e0 & m0 & Hin0 & El0 & ->).
    split; [|exists e0, m0; auto].
    rewrite lookup_insert_str.
    destruct (key_eqb (PStr m0) (PStr m)) eqn:Em; [|exact Hback].
    apply key_eqb_str_l in Em. injection Em as <-.
    rewrite (Hone e e0 m name (PStr native) Hin Hin0 El El0) in Ek.
    rewrite key_eqb_str_refl in Ek. discriminate.
Qed.

Lemma paired_for_each (l : list pyval) :
  forall s s' n n',
    (forall e, In e l -> In e entries) -> paired entries s ->
    for_each l (narkasa.register) s n = (Ok tt, s', n') -> paired entries s'.
Proof.
  induction l as [|e l IH]; intros s s' n n' Hl Hs H.
  - cbv in H. now injection H as <- _.
  - cbn [for_each] in H. unfold bind at 1 in H.
    destruct (narkasa.register e s n) as [[[[]|x] s1] n1] eqn:Er; [|discriminate].
    apply (IH s1 s' n1 n').
    + intros e0 He0. apply Hl. now right.
    + apply (paired_register e s s1 n n1); auto. apply Hl. now left.
    + exact H.
Qed.
End RoundTrip.

(** C6, as stated, fails.  The listing gives the native name ["BTCUSDT"]
    to BTC/USDT and to ETH/USDT, and ETH/USDT the second name ["ETHUSDT"].
    After discovery ["BTCUSDT"] is a native identifier of the registry, it
    converts to ["ETH/USDT"], and [markets] maps ["ETH/USDT"] to
    ["ETHUSDT"], not back to ["BTCUSDT"]. *)
Lemma narkasa_round_trip_fails_on_collision :
  exists s,
    narkasa.load_markets listing_colliding narkasa.init 0 = (Ok tt, s, 1) /\
    In (PStr "BTCUSDT") (dict_values (narkasa.markets s)) /\
    narkasa._convert_symbol_to_ccxt s (PStr "BTCUSDT") = Ok (PStr "ETH/USDT") /\
    dict_lookup (PStr "ETH/USDT") (narkasa.markets s) = Some (PStr "ETHUSDT").
Proof.
  eexists. split; [reflexivity|]. split; [left; reflexivity|]. split; reflexivity.
Qed.

(** C6, amended.  Let discovery succeed on a listing in which no market
    [BASE/QUOTE] is given two different native names.  Then for every str
    [n] that is a key of [symbols], [n] converts to a symbol that [markets]
    maps back to [n]. *)
Theorem narkasa_round_trip (T : Transport) (s s' : narkasa.self) (n n' : nat)
        (reply : list (string * pyval)) (entries : list pyval) :
  T n (narkasa.base_url ++ "v3/api/market/markets") = http_ok (PDict reply) ->
  assoc "code" reply = Some (PStr narkasa.code_ok) ->
  assoc "markets" reply = Some (PList entries) ->
  one_name_per_market entries ->
  narkasa.load_markets T s n = (Ok tt, s', n') ->
  forall native market,
    dict_lookup (PStr native) (narkasa.symbols s') = Some market ->
    narkasa._convert_symbol_to_ccxt s' (PStr native) = Ok market /\
    dict_lookup market (narkasa.markets s') = Some (PStr native).
Proof.
  intros HT Hcode Hlist Hone Hload native market Hkey.
  split.
  - unfold narkasa._convert_symbol_to_ccxt. now rewrite Hkey.
  - revert Hload. unfold narkasa.load_markets.
    cbv [bind get_self put_self lift ret fetch_data].
    rewrite HT. cbn [status body http_ok Z.eqb Pos.eqb py_get].
    rewrite Hcode, Hlist. cbn [eq_str].
    unfold narkasa.code_ok at 1 2. cbn [String.eqb Ascii.eqb Bool.eqb negb py_iter].
    cbn [narkasa.markets narkasa.symbols].
    intro Hload.
    assert (P : paired entries s').
    { eapply (paired_for_each entries Hone entries);
        [intros e H; exact H | apply paired_init | exact Hload]. }
    exact (proj1 (P native market Hkey)).
Qed.

Lemma narkasa_round_trip_witness :
  let s' :=
    {| narkasa.markets := [(PStr "BTC/USDT", PStr "BTCUSDT");
                           (PStr "ETH/USDT", PStr "ETHUSDT")];
       narkasa.symbols := [(PStr "BTCUSDT", PStr "BTC/USDT");
                           (PStr "ETHUSDT", PStr "ETH/USDT")] |} in
  narkasa.load_markets listing_plain narkasa_ready 0 = (Ok tt, s', 1) /\
  one_name_per_market listing_plain_entries /\
  narkasa._convert_symbol_to_ccxt s' (PStr "ETHUSDT") = Ok (PStr "ETH/USDT") /\
  dict_lookup (PStr "ETH/USDT") (narkasa.markets s') = Some (PStr "ETHUSDT").
Proof.
  intro s'.
  assert (Hone : one_name_per_market listing_plain_entries).
  { intros e1 e2 market name1 name2 [<-|[<-|[]]] [<-|[<-|[]]] H1 H2;
      vm_compute in H1, H2; congruence. }
  split; [reflexivity|]. split; [exact Hone|].
  exact (narkasa_round_trip listing_plain narkasa_ready s' 0 1
           listing_plain_body listing_plain_entries
           eq_refl eq_refl eq_refl Hone eq_refl "ETHUSDT" (PStr "ETH/USDT") eq_refl).
Defined.

(** ** Fetching the tickers one symbol at a time *)

Lemma merged_S_skip (sym : nat -> string) (tick : nat -> TickerInfo) (j : nat) :
  merged sym tick j (S j) = merged sym tick j j.
Proof.
  unfold merged. rewrite seq_S, filter_app, map_app. cbn [filter Nat.add].
  rewrite Nat.eqb_refl. cbn [negb map]. apply app_nil_r.
Qed.

Lemma merged_S_keep (sym : nat -> string) (tick : nat -> TickerInfo) (j k : nat) :
  k <> j ->
  merged sym tick j (S k) = (merged sym tick j k ++ [(PStr (sym k), tick k)])%list.
Proof.
  intro H. unfold merged. rewrite seq_S, filter_app, map_app. cbn [filter Nat.add].
  apply Nat.eqb_neq in H. rewrite H. reflexivity.
Qed.

Lemma merged_length_upto (sym : nat -> string) (tick : nat -> TickerInfo) (j n : nat) :
  List.length (merged sym tick j n) = if n <=? j then n else n - 1.
Proof.
  induction n as [|n IH]; [reflexivity|].
  destruct (Nat.eq_dec n j) as [->|Hn].
  - rewrite merged_S_skip, IH. rewrite Nat.leb_refl.
    destruct (Nat.leb_spec (S j) j); lia.
  - rewrite merged_S_keep by exact Hn. rewrite length_app, IH. cbn [List.length].
    destruct (Nat.leb_spec n j), (Nat.leb_spec (S n) j); lia.
Qed.

Lemma merged_length (sym : nat -> string) (tick : nat -> TickerInfo) (j n : nat) :
  j < n -> List.length (merged sym tick j n) = n - 1.
Proof.
  intro Hj. rewrite merged_length_upto.
  destruct (Nat.leb_spec n j); [lia | reflexivity].
Qed.

Lemma merged_lookup_absent (sym : nat -> string) (tick : nat -> TickerInfo)
      (j k : nat) (x : string) :
  (forall i, i < k -> i <> j -> sym i <> x) ->
  dict_lookup (PStr x) (merged sym tick j k) = None.
Proof.
  induction k as [|k IH]; intro H; [reflexivity|].
  destruct (Nat.eq_dec k j) as [->|Hk].
  - rewrite merged_S_skip. apply IH. intros i Hi. apply H. lia.
  - rewrite merged_S_keep by exact Hk.
    rewrite lookup_app_absent by (apply IH; intros i Hi; apply H; lia).
    cbn [dict_lookup]. rewrite key_eqb_str_neq; [reflexivity|].
    intro E. apply (H k); [lia | exact Hk | now symmetry].
Qed.

(** One turn of the loop of [narkasa.fetch_tickers], for a request that is
    answered with status 200 and a JSON object that has a [code]. *)
Lemma narkasa_fetch_each_step (T : Transport) (s : narkasa.self) (n : nat)
      (native : string) (rest : list pyval) (result : pydict TickerInfo)
      (data code : pyval) :
  T n (narkasa_ticker_url native) = http_ok data ->
  getitem_str data "code" = Ok code ->
  narkasa.fetch_each T (PStr native :: rest) result s n =
    if eq_str code narkasa.code_ok then
      match narkasa.normalize_data s data with
      | Ok one => narkasa.fetch_each T rest (dict_update result one) s (S n)
      | Raise e => (Raise e, s, S n)
      end
    else narkasa.fetch_each T rest result s (S n).
Proof.
  intros HT Hcode. cbn [narkasa.fetch_each].
  unfold bind at 1. cbn [lift str_add].
  change ((narkasa.base_url ++ "v3/api/market/24h?symbol=") ++ native)%string
    with (narkasa_ticker_url native).
  unfold bind at 1. rewrite (fetch_data_ok T _ s n data HT).
  unfold bind at 1. unfold lift at 1. rewrite Hcode.
  destruct (eq_str code narkasa.code_ok); [|reflexivity].
  unfold bind at 1. cbn [get_self].
  unfold bind at 1. unfold lift at 1.
  destruct (narkasa.normalize_data s data); reflexivity.
Qed.

Section SkipErrorCode.
Variable T : Transport.
Variable s : narkasa.self.
Variable n : nat.
Variable natives : list string.
Variable j : nat.
Variable data : nat -> pyval.
Variable sym : nat -> string.
Variable tick : nat -> TickerInfo.

Hypothesis Hreplies :
  forall i native, nth_error natives i = Some native ->
    T (n + i) (narkasa_ticker_url native) = http_ok (data i).
Hypothesis Hbad :
  exists code, getitem_str (data j) "code" = Ok code /\ code <> PStr narkasa.code_ok.
Hypothesis Hgood :
  forall i, i < List.length natives -> i <> j ->
    getitem_str (data i) "code" = Ok (PStr narkasa.code_ok) /\
    narkasa.normalize_data s (data i) = Ok [(PStr (sym i), tick i)].
Hypothesis Hdistinct :
  forall i i', i < List.length natives -> i' < List.length natives ->
    i <> j -> i' <> j -> i <> i' -> sym i <> sym i'.

(** The loop, started after the requests for [pre] with their entries
    merged, finishes with the entries of all the requests but [j]. *)
Lemma narkasa_fetch_each_skips (l : list string) :
  forall pre, natives = (pre ++ l)%list ->
    narkasa.fetch_each T (map PStr l) (merged sym tick j (List.length pre)) s
      (n + List.length pre) =
    (Ok (merged sym tick j (List.length natives)), s, n + List.length natives).
Proof.
  induction l as [|native l IH]; intros pre Hsplit.
  - rewrite app_nil_r in Hsplit. subst pre. reflexivity.
  - assert (Hnth : nth_error natives (List.length pre) = Some native).
    { rewrite Hsplit. now rewrite nth_error_app2, Nat.sub_diag by lia. }
    assert (Hlt : List.length pre < List.length natives).
    { rewrite Hsplit, length_app. cbn [List.length]. lia. }
    assert (Hnext : natives = ((pre ++ [native]) ++ l)%list).
    { rewrite Hsplit, <- app_assoc. reflexivity. }
    specialize (IH (pre ++ [native])%list Hnext).
    rewrite length_app in IH. cbn [List.length] in IH.
    rewrite Nat.add_1_r, Nat.add_succ_r in IH.
    cbn [map].
    destruct (Nat.eq_dec (List.length pre) j) as [Hj|Hj].
    + destruct Hbad as (code & Hcode & Hne).
      rewrite <- Hj in Hcode.
      rewrite (narkasa_fetch_each_step T s _ native _ _ _ code
                 (Hreplies _ _ Hnth) Hcode).
      apply eq_str_false in Hne. rewrite Hne.
      rewrite <- IH. rewrite Hj. now rewrite merged_S_skip.
    + destruct (Hgood _ Hlt Hj) as [Hcode Hnorm].
      rewrite (narkasa_fetch_each_step T s _ native _ _ _ _
                 (Hreplies _ _ Hnth) Hcode).
      replace (eq_str (PStr narkasa.code_ok) narkasa.code_ok) with true by reflexivity.
      rewrite Hnorm. rewrite <- IH.
      rewrite (merged_S_keep sym tick j _ Hj).
      unfold dict_update. cbn [fold_left fst snd].
      rewrite insert_absent_str; [reflexivity|].
      apply merged_lookup_absent. intros i Hi Hij.
      apply Hdistinct; lia.
Qed.
End SkipErrorCode.

(** C1, as stated, fails: with three markets in the registry and the second
    request answered with status 500, [narkasa.fetch_tickers] raises; the
    entry of the first request is lost and the third request is not made. *)
Lemma narkasa_fetch_tickers_bad_status_raises :
  dict_values (narkasa.markets narkasa_ready) = map PStr narkasa_natives /\
  status (second_request_500 0 (narkasa_ticker_url "BTCUSDT")) = 200%Z /\
  status (second_request_500 1 (narkasa_ticker_url "ETHUSDT")) = 500%Z /\
  status (second_request_500 2 (narkasa_ticker_url "LTCUSDT")) = 200%Z /\
  narkasa.fetch_tickers second_request_500 narkasa_ready 0 =
    (Raise Exception, narkasa_ready, 2).
Proof. repeat split; reflexivity. Qed.

(** The loop of [narkasa.fetch_tickers] stops at the first request that
    fails: when the requests before [j] were answered without an exception
    and request [j] fails, the loop raises after [j + 1] requests. *)
Lemma narkasa_fetch_each_raises (T : Transport) (s : narkasa.self) (l : list string) :
  forall (j : nat) (result : pydict TickerInfo) (n : nat) (data : nat -> pyval),
    (forall i native, i < j -> nth_error l i = Some native ->
       T (n + i) (narkasa_ticker_url native) = http_ok (data i)) ->
    (forall i, i < j ->
       exists code, getitem_str (data i) "code" = Ok code /\
         (code = PStr narkasa.code_ok ->
          exists one, narkasa.normalize_data s (data i) = Ok one)) ->
    (exists native, nth_error l j = Some native /\
       failed (T (n + j) (narkasa_ticker_url native)) = true) ->
    exists e, narkasa.fetch_each T (map PStr l) result s n = (Raise e, s, n + S j).
Proof.
  induction l as [|native0 rest IH]; intros j result n data Hreplies Hcodes Hfail.
  - destruct Hfail as (native & Hn & _). destruct j; discriminate.
  - destruct j as [|j].
    + destruct Hfail as (native & Hn & Hf). cbn [nth_error] in Hn. injection Hn as ->.
      rewrite Nat.add_0_r in Hf. cbn [map narkasa.fetch_each].
      unfold bind at 1. cbn [lift str_add].
      change ((narkasa.base_url ++ "v3/api/market/24h?symbol=") ++ native)%string
        with (narkasa_ticker_url native).
      unfold bind at 1. unfold fetch_data. unfold failed in Hf.
      rewrite Nat.add_1_r.
      destruct (status _ =? 200)%Z; cbn [negb orb] in Hf.
      * destruct (body _); [discriminate|]. eauto.
      * eauto.
    + assert (H0 : T n (narkasa_ticker_url native0) = http_ok (data 0)).
      { rewrite <- (Nat.add_0_r n) at 1. apply Hreplies; [lia | reflexivity]. }
      destruct (Hcodes 0) as (code & Hc & Hnorm); [lia|].
      cbn [map].
      rewrite (narkasa_fetch_each_step T s n native0 _ result (data 0) code H0 Hc).
      assert (Hnext : forall result',
                 exists e, narkasa.fetch_each T (map PStr rest) result' s (S n)
                           = (Raise e, s, n + S (S j))).
      { intro result'.
        replace (n + S (S j)) with (S n + S j) by lia.
        apply (IH j result' (S n) (fun i => data (S i))).
        - intros i native Hi Hn.
          replace (S n + i) with (n + S i) by lia.
          apply Hreplies; [lia | exact Hn].
        - intros i Hi. apply (Hcodes (S i)). lia.
        - destruct Hfail as (native & Hn & Hf). exists native. split; [exact Hn|].
          replace (S n + j) with (n + S j) by lia. exact Hf. }
      destruct (eq_str code narkasa.code_ok) eqn:E; [|apply Hnext].
      apply eq_str_true in E. destruct (Hnorm E) as [one Hone]. rewrite Hone.
      apply Hnext.
Qed.

(** C1, amended.  Let the registry of a narkasa adapter hold the native
    identifiers [natives].

    First part: let every per-symbol request be answered with status 200 and
    a JSON object.  If the reply to exactly one request, [j], carries a
    [code] other than ["00000"], and the other replies carry ["00000"] and
    normalise to entries under pairwise different symbols, then
    [fetch_tickers] does not raise: it returns the entries of the other
    requests in registry order, one fewer than there are identifiers.

    Second part: a request that fails in the transport (a status other than
    200, or a body that is not JSON) is not skipped.  If the requests before
    request [j] were answered without an exception and request [j] fails,
    then [fetch_tickers] raises at that request: it returns no mapping and
    makes no further request. *)
Theorem narkasa_fetch_tickers_skips_error_code :
  (forall (T : Transport) (s : narkasa.self) (n : nat) (natives : list string) (j : nat)
          (data : nat -> pyval) (sym : nat -> string) (tick : nat -> TickerInfo),
      dict_values (narkasa.markets s) = map PStr natives ->
      j < List.length natives ->
      (forall i native, nth_error natives i = Some native ->
         T (n + i) (narkasa_ticker_url native) = http_ok (data i)) ->
      (exists code,
         getitem_str (data j) "code" = Ok code /\ code <> PStr narkasa.code_ok) ->
      (forall i, i < List.length natives -> i <> j ->
         getitem_str (data i) "code" = Ok (PStr narkasa.code_ok) /\
         narkasa.normalize_data s (data i) = Ok [(PStr (sym i), tick i)]) ->
      (forall i i', i < List.length natives -> i' < List.length natives ->
         i <> j -> i' <> j -> i <> i' -> sym i <> sym i') ->
      exists result,
        narkasa.fetch_tickers T s n = (Ok result, s, n + List.length natives) /\
        result = merged sym tick j (List.length natives) /\
        List.length result = List.length natives - 1) /\
  (forall (T : Transport) (s : narkasa.self) (n : nat) (natives : list string) (j : nat)
          (data : nat -> pyval),
      dict_values (narkasa.markets s) = map PStr natives ->
      j < List.length natives ->
      (forall i native, i < j -> nth_error natives i = Some native ->
         T (n + i) (narkasa_ticker_url native) = http_ok (data i)) ->
      (forall i, i < j ->
         exists code, getitem_str (data i) "code" = Ok code /\
           (code = PStr narkasa.code_ok ->
            exists one, narkasa.normalize_data s (data i) = Ok one)) ->
      (forall native, nth_error natives j = Some native ->
         failed (T (n + j) (narkasa_ticker_url native)) = true) ->
      exists e, narkasa.fetch_tickers T s n = (Raise e, s, n + S j)).
Proof.
  assert (Hloop : forall (T : Transport) (s : narkasa.self) (n : nat) (natives : list string),
             dict_values (narkasa.markets s) = map PStr natives ->
             natives <> [] ->
             narkasa.fetch_tickers T s n =
             narkasa.fetch_each T (map PStr natives) [] s n).
  { intros T s n natives Hvalues Hne. unfold narkasa.fetch_tickers.
    unfold bind at 1. cbn [get_self].
    destruct (narkasa.markets s) as [|kv m] eqn:Em.
    - destruct natives; [contradiction | discriminate].
    - cbn [negb]. unfold bind at 1. cbn [ret].
      unfold bind at 1. cbn [get_self]. now rewrite Em, Hvalues. }
  split.
  - intros T s n natives j data sym tick Hvalues Hj Hreplies Hbad Hgood Hdistinct.
    exists (merged sym tick j (List.length natives)).
    split; [|split; [reflexivity | now apply merged_length]].
    rewrite (Hloop T s n natives Hvalues) by (intros ->; simpl in Hj; lia).
    pose proof (narkasa_fetch_each_skips T s n natives j data sym tick
                  Hreplies Hbad Hgood Hdistinct natives [] eq_refl) as H.
    cbn [List.length] in H. rewrite Nat.add_0_r in H. exact H.
  - intros T s n natives j data Hvalues Hj Hreplies Hcodes Hfail.
    rewrite (Hloop T s n natives Hvalues) by (intros ->; simpl in Hj; lia).
    apply (narkasa_fetch_each_raises T s natives j [] n data Hreplies Hcodes).
    destruct (nth_error natives j) as [native|] eqn:En.
    + exists native. split; [reflexivity | now apply Hfail].
    + apply nth_error_None in En. lia.
Qed.

Lemma narkasa_fetch_tickers_skips_error_code_witness :
  (exists result,
     narkasa.fetch_tickers second_symbol_error_code narkasa_ready 0
       = (Ok result, narkasa_ready, 3) /\
     result = merged sample_sym sample_tick 1 3 /\
     List.length result = 2) /\
  (exists e,
     narkasa.fetch_tickers second_request_500 narkasa_ready 0 = (Raise e, narkasa_ready, 2)).
Proof.
  split.
  - apply (proj1 narkasa_fetch_tickers_skips_error_code second_symbol_error_code
             narkasa_ready 0 narkasa_natives 1 sample_data sample_sym sample_tick).
    + reflexivity.
    + simpl. lia.
    + intros i native H. reflexivity.
    + exists (PStr "40004"). split; [reflexivity | discriminate].
    + intros [|[|[|i]]] Hi Hij; try (split; reflexivity); simpl in Hi; lia.
    + intros [|[|[|i]]] [|[|[|i']]] Hi Hi' Hij Hi'j Hii'; simpl in Hi, Hi';
        try lia; discriminate.
  - apply (proj2 narkasa_fetch_tickers_skips_error_code second_request_500
             narkasa_ready 0 narkasa_natives 1 sample_data).
    + reflexivity.
    + simpl. lia.
    + intros [|i] native Hi Hn; [|lia].
      simpl in Hn. injection Hn as <-. reflexivity.
    + intros [|i] Hi; [|lia].
      exists (PStr "00000"). split; [reflexivity|].
      intros _. eexists. reflexivity.
    + intros native Hn. simpl in Hn. injection Hn as <-. reflexivity.
Defined.

(** * Further properties of the adapters *)

(** ** More facts about dicts *)

Section MoreDictFacts.
Context {V : Type}.

Lemma lookup_In (k : pyval) (v : V) (d : pydict V) :
  dict_lookup k d = Some v -> exists k', In (k', v) d.
Proof.
  induction d as [|[k' v'] d IH]; cbn [dict_lookup]; [discriminate|].
  destruct (key_eqb k k').
  - intro H. injection H as ->. exists k'. now left.
  - intro H. destruct (IH H) as [k0 H0]. exists k0. now right.
Qed.

Lemma In_insert (k k0 : pyval) (v v0 : V) (d : pydict V) :
  In (k, v) (dict_insert k0 v0 d) -> In (k, v) d \/ v = v0.
Proof.
  induction d as [|[k' v'] d IH]; cbn [dict_insert].
  - intros [H|[]]. injection H as _ <-. now right.
  - destruct (key_eqb k0 k').
    + intros [H|H]; [injection H as _ <-; now right | left; now right].
    + intros [H|H]; [left; now left|].
      destruct (IH H) as [H1|H1]; [left; now right | now right].
Qed.

(** An assignment under a str key keeps a property of the entries. *)
Lemma insert_str_Forall (P : pyval * V -> Prop) (n : string) (v : V) (d : pydict V) :
  P (PStr n, v) -> Forall P d -> Forall P (dict_insert (PStr n) v d).
Proof.
  intros Hv. induction 1 as [|[k' v'] d Hx Hd IH]; cbn [dict_insert].
  - constructor; [exact Hv | constructor].
  - destruct (key_eqb (PStr n) k') eqn:E.
    + apply key_eqb_str_l in E. subst k'. constructor; assumption.
    + constructor; assumption.
Qed.

(** An assignment keeps a property of the keys. *)
Lemma insert_keys_Forall (P : pyval -> Prop) (k : pyval) (v : V) (d : pydict V) :
  P k -> Forall (fun kv => P (fst kv)) d ->
  Forall (fun kv => P (fst kv)) (dict_insert k v d).
Proof.
  intros Hk. induction 1 as [|[k' v'] d Hx Hd IH]; cbn [dict_insert].
  - constructor; [exact Hk | constructor].
  - destruct (key_eqb k k'); constructor; auto.
Qed.

Lemma insert_length (k : pyval) (v : V) (d : pydict V) :
  List.length d <= List.length (dict_insert k v d) <= S (List.length d).
Proof.
  induction d as [|[k' v'] d IH]; cbn [dict_insert List.length]; [lia|].
  destruct (key_eqb k k'); cbn [List.length]; lia.
Qed.

Lemma lookup_insert_str_present (n : string) (k : pyval) (v : V) (d : pydict V) :
  dict_lookup (PStr n) d <> None -> dict_lookup (PStr n) (dict_insert k v d) <> None.
Proof.
  intro H. rewrite lookup_insert_str. destruct (key_eqb (PStr n) k); [discriminate | exact H].
Qed.
End MoreDictFacts.

(** ** Discovery and transport failures *)

(** X1.  [narkasa.load_markets] empties the registry before it asks for the
    listing: when the request fails (status other than 200, or a body that
    is not JSON) the call raises and the registry it had is gone. *)
Theorem narkasa_load_markets_failure_empties (T : Transport) (s : narkasa.self) (n : nat) :
  failed (T n (narkasa.base_url ++ "v3/api/market/markets")) = true ->
  exists e, narkasa.load_markets T s n = (Raise e, narkasa.init, S n).
Proof.
  unfold failed, narkasa.load_markets.
  cbv [bind get_self put_self lift ret fetch_data]. cbn [narkasa.markets narkasa.symbols].
  destruct (status _ =? 200)%Z; cbn [negb orb].
  - destruct (body _); [discriminate|]. eauto.
  - eauto.
Qed.

Lemma narkasa_load_markets_failure_empties_witness :
  failed (second_request_500 1 (narkasa.base_url ++ "v3/api/market/markets")) = true /\
  exists e, narkasa.load_markets second_request_500 narkasa_ready 1
            = (Raise e, narkasa.init, 2).
Proof.
  split; [reflexivity|].
  exact (narkasa_load_markets_failure_empties second_request_500 narkasa_ready 1 eq_refl).
Defined.

(** X2.  [toobit.load_markets] asks first and writes afterwards: when the
    request fails the call raises and the registry is what it was. *)
Theorem toobit_load_markets_failure_keeps (T : Transport) (s : toobit.self) (n : nat) :
  failed (T n (toobit.base_url ++ "api/v1/exchangeInfo")) = true ->
  exists e, toobit.load_markets T s n = (Raise e, s, S n).
Proof.
  unfold failed, toobit.load_markets.
  cbv [bind get_self put_self lift ret fetch_data].
  destruct (status _ =? 200)%Z; cbn [negb orb].
  - destruct (body _); [discriminate|]. eauto.
  - eauto.
Qed.

Lemma toobit_load_markets_failure_keeps_witness :
  failed (second_request_500 1 (toobit.base_url ++ "api/v1/exchangeInfo")) = true /\
  exists e, toobit.load_markets second_request_500 toobit_stale 1
            = (Raise e, toobit_stale, 2).
Proof.
  split; [reflexivity|].
  exact (toobit_load_markets_failure_keeps second_request_500 toobit_stale 1 eq_refl).
Defined.

(** ** What discovery leaves in the registry of narkasa *)

(** One turn of the loop of [narkasa.load_markets], whatever its outcome,
    leaves the registry as it is, or assigns in [markets] only (and raises),
    or assigns in both dicts. *)
Lemma narkasa_register_any (entry : pyval) (s s' : narkasa.self) (n n' : nat)
      (r : Result unit) :
  narkasa.register entry s n = (r, s', n') ->
  n' = n /\
  (s' = s \/
   (exists m name,
      s' = {| narkasa.markets := dict_insert (PStr m) name (narkasa.markets s);
              narkasa.symbols := narkasa.symbols s |}) \/
   (exists m name,
      s' = {| narkasa.markets := dict_insert (PStr m) name (narkasa.markets s);
              narkasa.symbols := dict_insert name (PStr m) (narkasa.symbols s) |})).
Proof.
  unfold narkasa.register.
  destruct entry as [| | | | |l|d];
    try (cbv; intro H; injection H as _ <- <-; auto).
  cbv [bind lift py_get get_self put_self ret].
  set (base := match assoc "firstSymbol" d with Some x => x | None => PNone end).
  set (quote := match assoc "secondSymbol" d with Some x => x | None => PNone end).
  set (name := match assoc "symbol" d with Some x => x | None => PNone end).
  destruct (truthy base && truthy quote); [|intro H; injection H as _ <- <-; auto].
  destruct (py_add base (PStr "/")) as [b|] eqn:E1; [|intro H; injection H as _ <- <-; auto].
  apply py_add_str_r in E1. destruct E1 as (sb & -> & ->).
  destruct (py_add (PStr (sb ++ "/")) quote) as [market|] eqn:E2;
    [|intro H; injection H as _ <- <-; auto].
  apply py_add_str_l in E2. destruct E2 as (sq & -> & ->).
  unfold setitem. cbn [hashable narkasa.markets narkasa.symbols].
  destruct (hashable name); intro H; injection H as _ <- <-; split; trivial.
  - right. right. eauto.
  - right. left. eauto.
Qed.

Lemma closed_init : closed narkasa.init.
Proof. intros k m []. Qed.

Lemma closed_register (entry : pyval) (s s' : narkasa.self) (n n' : nat)
      (r : Result unit) :
  narkasa.register entry s n = (r, s', n') -> closed s -> closed s'.
Proof.
  intros H Hs. apply narkasa_register_any in H.
  destruct H as [_ [->|[(m & name & ->)|(m & name & ->)]]]; [exact Hs| |];
    intros k mv Hin; cbn [narkasa.markets narkasa.symbols] in *.
  - destruct (Hs k mv Hin) as (t & -> & Ht). exists t. split; [reflexivity|].
    now apply lookup_insert_str_present.
  - apply In_insert in Hin. destruct Hin as [Hin| ->].
    + destruct (Hs k mv Hin) as (t & -> & Ht). exists t. split; [reflexivity|].
      now apply lookup_insert_str_present.
    + exists m. split; [reflexivity|].
      rewrite lookup_insert_str, key_eqb_str_refl. discriminate.
Qed.

Lemma closed_for_each (l : list pyval) :
  forall s s' n n' r,
    for_each l narkasa.register s n = (r, s', n') -> closed s -> closed s'.
Proof.
  induction l as [|e l IH]; intros s s' n n' r H Hs.
  - cbv in H. now injection H as _ <- _.
  - cbn [for_each] in H. unfold bind at 1 in H.
    destruct (narkasa.register e s n) as [[[u|x] s1] n1] eqn:Er.
    + apply (IH _ _ _ _ _ H). exact (closed_register _ _ _ _ _ _ Er Hs).
    + injection H as _ <- _. exact (closed_register _ _ _ _ _ _ Er Hs).
Qed.

(** However [narkasa.load_markets] ends, and whatever the registry was, the
    registry it leaves is [closed]. *)
Lemma closed_load_markets (T : Transport) (s s' : narkasa.self) (n n' : nat)
      (r : Result unit) :
  narkasa.load_markets T s n = (r, s', n') -> closed s'.
Proof.
  unfold narkasa.load_markets.
  cbv [bind get_self put_self lift ret fetch_data]. cbn [narkasa.markets narkasa.symbols].
  destruct (status _ =? 200)%Z;
    [|intro H; injection H as _ <- _; apply closed_init].
  destruct (body _) as [data|]; [|intro H; injection H as _ <- _; apply closed_init].
  destruct (py_get data "code" PNone) as [code|];
    [|intro H; injection H as _ <- _; apply closed_init].
  destruct (negb (eq_str code narkasa.code_ok));
    [intro H; injection H as _ <- _; apply closed_init|].
  destruct (py_get data "markets" (PList [])) as [listed|];
    [|intro H; injection H as _ <- _; apply closed_init].
  destruct (py_iter listed) as [items|];
    [|intro H; injection H as _ <- _; apply closed_init].
  intro H. exact (closed_for_each _ _ _ _ _ _ H closed_init).
Qed.

(** X3.  After [narkasa.load_markets], however it ended and whatever the
    registry held before, every symbol that [_convert_symbol_to_ccxt]
    returns is a str and a key of [markets]. *)
Theorem narkasa_convert_returns_registered_market
        (T : Transport) (s s' : narkasa.self) (n n' : nat) (r : Result unit)
        (native market : pyval) :
  narkasa.load_markets T s n = (r, s', n') ->
  narkasa._convert_symbol_to_ccxt s' native = Ok market ->
  exists t v, market = PStr t /\ dict_lookup (PStr t) (narkasa.markets s') = Some v.
Proof.
  intros Hload Hconv. apply closed_load_markets in Hload.
  unfold narkasa._convert_symbol_to_ccxt in Hconv.
  destruct native; try discriminate.
  destruct (dict_lookup (PStr s0) (narkasa.symbols s')) as [m|] eqn:E; [|discriminate].
  injection Hconv as ->.
  destruct (lookup_In _ _ _ E) as [k Hin].
  destruct (Hload k market Hin) as (t & -> & Ht).
  destruct (dict_lookup (PStr t) (narkasa.markets s')) as [v|] eqn:Ev; [|contradiction].
  eauto.
Qed.

Lemma narkasa_convert_returns_registered_market_witness :
  exists t v,
    PStr "ETH/USDT" = PStr t /\
    dict_lookup (PStr t)
      (narkasa.markets (snd (fst (narkasa.load_markets listing_colliding narkasa_ready 0))))
    = Some v.
Proof.
  exact (narkasa_convert_returns_registered_market listing_colliding narkasa_ready
           _ 0 1 (Ok tt) (PStr "BTCUSDT") (PStr "ETH/USDT") eq_refl eq_refl).
Defined.

(** ** The loop of [fetch_tickers] *)

(** When [narkasa.normalize_data] returns, the mapping has one entry and its
    key is a value of [symbols]. *)
Lemma narkasa_normalize_single (s : narkasa.self) (data : pyval) (one : pydict TickerInfo) :
  narkasa.normalize_data s data = Ok one ->
  exists k m t, one = [(m, t)] /\ In (k, m) (narkasa.symbols s).
Proof.
  unfold narkasa.normalize_data. intro H.
  destruct (py_get data "market" (PDict [])) as [ticker|]; [|discriminate].
  cbn [bindR] in H.
  destruct (py_get ticker "symbol" (PStr "")) as [native|]; [|discriminate].
  cbn [bindR] in H.
  destruct (narkasa._convert_symbol_to_ccxt s native) as [m|] eqn:Ec; [|discriminate].
  cbn [bindR] in H.
  destruct (py_get ticker "last" (PInt 0)) as [l|]; [|discriminate]. cbn [bindR] in H.
  destruct (py_float l) as [lastv|]; [|discriminate]. cbn [bindR] in H.
  destruct (py_get ticker "volumeQty" (PInt 0)) as [b|]; [|discriminate]. cbn [bindR] in H.
  destruct (py_float b) as [basev|]; [|discriminate]. cbn [bindR] in H.
  destruct (py_get ticker "volume" (PInt 0)) as [q|]; [|discriminate]. cbn [bindR] in H.
  destruct (py_float q) as [quotev|]; [|discriminate]. cbn [bindR] in H.
  unfold setitem in H. destruct (hashable m); [|discriminate].
  injection H as <-.
  unfold narkasa._convert_symbol_to_ccxt in Ec.
  destruct native; try discriminate.
  destruct (dict_lookup (PStr s0) (narkasa.symbols s)) as [m'|] eqn:El; [|discriminate].
  injection Ec as ->.
  destruct (lookup_In _ _ _ El) as [k Hk]. eauto.
Qed.

(** The loop of [narkasa.fetch_tickers] never assigns to the registry.  When
    it returns it has made one request per value, the mapping has grown by at
    most one entry per value, and over a [closed] registry every key it
    added is a str. *)
Lemma narkasa_fetch_each_inv (T : Transport) (values : list pyval) :
  forall result s n r s' n',
    narkasa.fetch_each T values result s n = (r, s', n') ->
    s' = s /\
    forall res, r = Ok res ->
      n' = n + List.length values /\
      List.length res <= List.length result + List.length values /\
      (closed s -> Forall (fun kv => is_str (fst kv) = true) result ->
       Forall (fun kv => is_str (fst kv) = true) res).
Proof.
  induction values as [|symbol rest IH]; intros result s n r s' n' H.
  - cbv [narkasa.fetch_each ret] in H. injection H as <- <- <-.
    split; [reflexivity|]. intros res E. injection E as <-.
    cbn [List.length]. repeat split; auto; lia.
  - cbn [narkasa.fetch_each] in H.
    unfold bind at 1 in H. unfold lift at 1 in H.
    destruct (str_add _ symbol) as [url|];
      [|injection H as <- <- _; split; [reflexivity | discriminate]].
    unfold bind at 1 in H. unfold fetch_data at 1 in H.
    destruct (if (status (T n url) =? 200)%Z then _ else _) as [data|];
      [|injection H as <- <- _; split; [reflexivity | discriminate]].
    unfold bind at 1 in H. unfold lift at 1 in H.
    destruct (getitem_str data "code") as [code|];
      [|injection H as <- <- _; split; [reflexivity | discriminate]].
    destruct (eq_str code narkasa.code_ok).
    + unfold bind at 1 in H. cbn [get_self] in H.
      unfold bind at 1 in H. unfold lift at 1 in H.
      destruct (narkasa.normalize_data s data) as [one|] eqn:En;
        [|injection H as <- <- _; split; [reflexivity | discriminate]].
      apply narkasa_normalize_single in En. destruct En as (k & m & t & -> & Hin).
      apply IH in H. destruct H as [-> H]. split; [reflexivity|].
      intros res E. destruct (H res E) as (Hn & Hlen & Hkeys).
      unfold dict_update in Hlen, Hkeys. cbn [fold_left fst snd] in Hlen, Hkeys.
      pose proof (insert_length m t result) as Hi.
      cbn [List.length]. repeat split; [lia | lia |].
      intros Hc Hres. apply Hkeys; [exact Hc|].
      apply (insert_keys_Forall (fun k => is_str k = true)); [|exact Hres].
      destruct (Hc k m Hin) as (t0 & -> & _). reflexivity.
    + apply IH in H. destruct H as [-> H]. split; [reflexivity|].
      intros res E. destruct (H res E) as (Hn & Hlen & Hkeys).
      cbn [List.length]. repeat split; [lia | lia | exact Hkeys].
Qed.

(** The loop of [narkasa.fetch_tickers] reads the transport only at the
    ticker URLs of the values, request by request. *)
Lemma narkasa_fetch_each_ext (T T' : Transport) (s : narkasa.self) (values : list pyval) :
  forall result n,
    (forall i native, nth_error values i = Some (PStr native) ->
       T' (n + i) (narkasa_ticker_url native) = T (n + i) (narkasa_ticker_url native)) ->
    narkasa.fetch_each T' values result s n = narkasa.fetch_each T values result s n.
Proof.
  induction values as [|symbol rest IH]; intros result n H; [reflexivity|].
  cbn [narkasa.fetch_each].
  destruct symbol as [| | | |native| |]; try reflexivity.
  pose proof (H 0 native eq_refl) as H0. rewrite Nat.add_0_r in H0.
  change (narkasa_ticker_url native)
    with ((narkasa.base_url ++ "v3/api/market/24h?symbol=") ++ native)%string in H0.
  cbv [bind lift str_add fetch_data get_self]. rewrite H0.
  assert (Hrest : forall result',
             narkasa.fetch_each T' rest result' s (S n)
             = narkasa.fetch_each T rest result' s (S n)).
  { intro result'. apply IH. intros i native' Hn.
    replace (S n + i) with (n + S i) by lia. apply H. exact Hn. }
  destruct (status _ =? 200)%Z; [|reflexivity].
  destruct (body _) as [data|]; [|reflexivity].
  destruct (getitem_str data "code") as [code|]; [|reflexivity].
  destruct (eq_str code narkasa.code_ok); [|apply Hrest].
  destruct (narkasa.normalize_data s data); [apply Hrest | reflexivity].
Qed.

(** X4.  Over a registry that is not empty, [narkasa.fetch_tickers] asks
    for the ticker of each market and for nothing else: request number [i]
    of the call is the one for the ticker URL of the [i]-th native name, and
    two exchanges that answer these requests alike give the same outcome,
    whatever they answer to any other request, the listing included.  A call
    that returns has made one request per market, has left the registry as
    it was, and returns at most one entry per market. *)
Theorem narkasa_fetch_tickers_one_request_per_market
        (T T' : Transport) (s : narkasa.self) (n : nat) :
  narkasa.markets s <> [] ->
  (forall i native,
     nth_error (dict_values (narkasa.markets s)) i = Some (PStr native) ->
     T' (n + i) (narkasa_ticker_url native) = T (n + i) (narkasa_ticker_url native)) ->
  narkasa.fetch_tickers T' s n = narkasa.fetch_tickers T s n /\
  (forall result s' n',
     narkasa.fetch_tickers T s n = (Ok result, s', n') ->
     s' = s /\
     n' = n + List.length (narkasa.markets s) /\
     List.length result <= List.length (narkasa.markets s)).
Proof.
  intros Hne Hagree.
  assert (Hloop : forall T0, narkasa.fetch_tickers T0 s n =
                             narkasa.fetch_each T0 (dict_values (narkasa.markets s)) [] s n).
  { intro T0. unfold narkasa.fetch_tickers.
    unfold bind at 1. cbn [get_self].
    destruct (narkasa.markets s) as [|kv m] eqn:Em; [contradiction|].
    cbn [negb]. unfold bind at 1. cbn [ret].
    unfold bind at 1. cbn [get_self]. now rewrite Em. }
  split.
  - rewrite !Hloop. now apply narkasa_fetch_each_ext.
  - intros result s' n' H. rewrite Hloop in H.
    apply narkasa_fetch_each_inv in H. destruct H as [-> H].
    destruct (H result eq_refl) as (Hn & Hlen & _).
    unfold dict_values in Hn, Hlen. rewrite length_map in Hn, Hlen.
    cbn [List.length] in *. repeat split; lia.
Qed.

Lemma narkasa_fetch_tickers_one_request_per_market_witness :
  narkasa.fetch_tickers narkasa_tickers_only narkasa_ready 0 =
    narkasa.fetch_tickers second_symbol_error_code narkasa_ready 0 /\
  3 = 0 + List.length (narkasa.markets narkasa_ready) /\
  List.length (merged sample_sym sample_tick 1 3) <= List.length (narkasa.markets narkasa_ready).
Proof.
  assert (Hne : narkasa.markets narkasa_ready <> []) by discriminate.
  assert (Hagree : forall i native,
             nth_error (dict_values (narkasa.markets narkasa_ready)) i = Some (PStr native) ->
             narkasa_tickers_only (0 + i) (narkasa_ticker_url native)
             = second_symbol_error_code (0 + i) (narkasa_ticker_url native)).
  { intros [|[|[|i]]] native Hn; simpl in Hn; try (injection Hn as <-; reflexivity).
    destruct i; discriminate. }
  destruct (narkasa_fetch_tickers_one_request_per_market second_symbol_error_code
              narkasa_tickers_only narkasa_ready 0 Hne Hagree) as [Hsame Hcount].
  split; [exact Hsame|].
  exact (proj2 (Hcount (merged sample_sym sample_tick 1 3) narkasa_ready 3 eq_refl)).
Defined.

(** X5.  [main] never fails its assertions: whatever the exchange answers,
    it either raises one of the exceptions of the adapter or finishes with a
    mapping whose keys are all strs. *)
Theorem main_assertions_hold (T : Transport) : main T <> AssertionFailed.
Proof.
  unfold main. unfold bind at 1.
  destruct (narkasa.load_markets T narkasa.init 0) as [[[u|e] s1] n1] eqn:El;
    [|discriminate].
  apply closed_load_markets in El.
  destruct (narkasa.fetch_tickers T s1 n1) as [[[tickers|e] s2] n2] eqn:Ef;
    [|discriminate].
  assert (Hkeys : Forall (fun kv => is_str (fst kv) = true) tickers).
  { unfold narkasa.fetch_tickers in Ef.
    unfold bind at 1 in Ef. cbn [get_self] in Ef.
    unfold bind at 1 in Ef.
    destruct (if negb _ then _ else _) as [[[u'|e] s3] n3] eqn:E2 in Ef; [|discriminate].
    assert (Hc : closed s3).
    { destruct (narkasa.markets s1).
      - cbn [negb] in E2. exact (closed_load_markets _ _ _ _ _ _ E2).
      - cbn [negb] in E2. cbv [ret] in E2. now injection E2 as _ <- _. }
    unfold bind at 1 in Ef. cbn [get_self] in Ef.
    apply narkasa_fetch_each_inv in Ef. destruct Ef as [_ Ef].
    destruct (Ef tickers eq_refl) as (_ & _ & Hk). apply Hk; [exact Hc | constructor]. }
  destruct (forallb _ tickers) eqn:Ea; [discriminate|].
  exfalso. rewrite <- not_true_iff_false in Ea. apply Ea.
  apply forallb_forall. intros kv Hin.
  rewrite Forall_forall in Hkeys. exact (Hkeys kv Hin).
Qed.

(** ** The registry of narkasa against the listing *)

(** What the turns of the loop that returned have done to the str keys of
    the two dicts: keys are kept, every complete entry with a str name is
    registered, and every key comes from the registry before or from an
    entry. *)
Lemma narkasa_for_each_effect (l : list pyval) :
  forall s s' n n',
    for_each l narkasa.register s n = (Ok tt, s', n') ->
    (forall name, dict_lookup (PStr name) (narkasa.symbols s) <> None ->
                  dict_lookup (PStr name) (narkasa.symbols s') <> None) /\
    (forall m, dict_lookup (PStr m) (narkasa.markets s) <> None ->
               dict_lookup (PStr m) (narkasa.markets s') <> None) /\
    (forall e m name, In e l -> narkasa_listed e = Some (m, PStr name) ->
       dict_lookup (PStr name) (narkasa.symbols s') <> None /\
       dict_lookup (PStr m) (narkasa.markets s') <> None) /\
    (forall name mv, dict_lookup (PStr name) (narkasa.symbols s') = Some mv ->
       dict_lookup (PStr name) (narkasa.symbols s) = Some mv \/
       exists e m, In e l /\ narkasa_listed e = Some (m, PStr name) /\ mv = PStr m) /\
    (forall m v, dict_lookup (PStr m) (narkasa.markets s') = Some v ->
       dict_lookup (PStr m) (narkasa.markets s) = Some v \/
       exists e, In e l /\ narkasa_listed e = Some (m, v)).
Proof.
  induction l as [|e l IH]; intros s s' n n' H.
  - cbv in H. injection H as <- _.
    repeat split; auto; intros ? ? ? [].
  - cbn [for_each] in H. unfold bind at 1 in H.
    destruct (narkasa.register e s n) as [[[[]|x] s1] n1] eqn:Er; [|discriminate].
    apply IH in H. destruct H as (Ksym & Kmar & Hcomp & Hsym & Hmar).
    apply narkasa_register_ok in Er. destruct Er as [_ Er].
    destruct (narkasa_listed e) as [[m0 name0]|] eqn:El.
    + destruct Er as [_ ->]. cbn [narkasa.markets narkasa.symbols] in *.
      repeat split.
      * intros name Hn. apply Ksym. now apply lookup_insert_str_present.
      * intros m Hm. apply Kmar. now apply lookup_insert_str_present.
      * destruct H as [<-|Hin]; [|exact (proj1 (Hcomp _ _ _ Hin H0))].
        rewrite El in H0. injection H0 as -> ->.
        apply Ksym. rewrite lookup_insert_str, key_eqb_str_refl. discriminate.
      * destruct H as [<-|Hin]; [|exact (proj2 (Hcomp _ _ _ Hin H0))].
        rewrite El in H0. injection H0 as -> ->.
        apply Kmar. rewrite lookup_insert_str, key_eqb_str_refl. discriminate.
      * intros name mv Hl. destruct (Hsym _ _ Hl) as [Hl1|(e1 & m1 & Hin & He1 & ->)].
        -- rewrite lookup_insert_str in Hl1.
           destruct (key_eqb (PStr name) name0) eqn:Ek; [|now left].
           apply key_eqb_str_l in Ek. subst name0. injection Hl1 as <-.
           right. exists e, m0. repeat split; [now left | exact El].
        -- right. exists e1, m1. repeat split; [now right | exact He1].
      * intros m v Hl. destruct (Hmar _ _ Hl) as [Hl1|(e1 & Hin & He1)].
        -- rewrite lookup_insert_str in Hl1.
           destruct (key_eqb (PStr m) (PStr m0)) eqn:Ek; [|now left].
           apply key_eqb_str_l in Ek. injection Ek as <-. injection Hl1 as <-.
           right. exists e. split; [now left | exact El].
        -- right. exists e1. split; [now right | exact He1].
    + subst s1. repeat split.
      * exact Ksym.
      * exact Kmar.
      * destruct H as [<-|Hin]; [congruence | exact (proj1 (Hcomp _ _ _ Hin H0))].
      * destruct H as [<-|Hin]; [congruence | exact (proj2 (Hcomp _ _ _ Hin H0))].
      * intros name mv Hl. destruct (Hsym _ _ Hl) as [Hl1|(e1 & m1 & Hin & He1 & ->)];
          [now left|].
        right. exists e1, m1. repeat split; [now right | exact He1].
      * intros m v Hl. destruct (Hmar _ _ Hl) as [Hl1|(e1 & Hin & He1)]; [now left|].
        right. exists e1. split; [now right | exact He1].
Qed.

(** X6.  After a discovery of narkasa that succeeded on a listing with the
    code ["00000"], the str keys of the registry are those of the listing.
    Every entry with non-empty str [firstSymbol] and [secondSymbol] and a
    str [symbol] has its name in [symbols] and its market in [markets].
    Every str key of [symbols] is the [symbol] of such an entry and maps to
    the market of that entry.  Every str key of [markets] is the market of
    an entry with non-empty str [firstSymbol] and [secondSymbol], and maps
    to the [symbol] field of that entry, whatever that field is: a str or
    not, [None] when the entry has none. *)
Theorem narkasa_registry_reflects_listing
        (T : Transport) (s s' : narkasa.self) (n n' : nat)
        (reply : list (string * pyval)) (entries : list pyval) :
  T n (narkasa.base_url ++ "v3/api/market/markets") = http_ok (PDict reply) ->
  assoc "code" reply = Some (PStr narkasa.code_ok) ->
  assoc "markets" reply = Some (PList entries) ->
  narkasa.load_markets T s n = (Ok tt, s', n') ->
  (forall e m name, In e entries -> narkasa_listed e = Some (m, PStr name) ->
     dict_lookup (PStr name) (narkasa.symbols s') <> None /\
     dict_lookup (PStr m) (narkasa.markets s') <> None) /\
  (forall name mv, dict_lookup (PStr name) (narkasa.symbols s') = Some mv ->
     exists e m, In e entries /\ narkasa_listed e = Some (m, PStr name) /\ mv = PStr m) /\
  (forall m v, dict_lookup (PStr m) (narkasa.markets s') = Some v ->
     exists e, In e entries /\ narkasa_listed e = Some (m, v)).
Proof.
  intros HT Hcode Hlist. unfold narkasa.load_markets.
  cbv [bind get_self put_self lift ret fetch_data].
  rewrite HT. cbn [status body http_ok Z.eqb Pos.eqb py_get].
  rewrite Hcode, Hlist. cbn [eq_str].
  unfold narkasa.code_ok at 1 2. cbn [String.eqb Ascii.eqb Bool.eqb negb py_iter].
  cbn [narkasa.markets narkasa.symbols].
  intro Hload. apply narkasa_for_each_effect in Hload.
  destruct Hload as (_ & _ & Hcomp & Hsym & Hmar).
  split; [exact Hcomp|]. split.
  - intros name mv Hl. destruct (Hsym _ _ Hl) as [Hl1|H]; [discriminate | exact H].
  - intros m v Hl. destruct (Hmar _ _ Hl) as [Hl1|H]; [discriminate | exact H].
Qed.

Lemma narkasa_registry_reflects_listing_witness :
  dict_lookup (PStr "ETHUSDT")
    (narkasa.symbols (snd (fst (narkasa.load_markets listing_plain narkasa_ready 0))))
    <> None /\
  dict_lookup (PStr "ETH/USDT")
    (narkasa.markets (snd (fst (narkasa.load_markets listing_plain narkasa_ready 0))))
    <> None.
Proof.
  refine (proj1 (narkasa_registry_reflects_listing listing_plain narkasa_ready _ 0 1
                   listing_plain_body listing_plain_entries
                   eq_refl eq_refl eq_refl eq_refl)
            (narkasa_market "ETH" "USDT" "ETHUSDT") "ETH/USDT" "ETHUSDT" _ eq_refl).
  right. left. reflexivity.
Defined.

(** X7.  Called on an empty registry, [narkasa.fetch_tickers] discovers
    first.  When the listing is answered with a code other than ["00000"]
    the registry stays empty, no ticker is requested and the call returns
    the empty mapping: one request in all. *)
Theorem narkasa_fetch_tickers_refused_listing
        (T : Transport) (s : narkasa.self) (n : nat) (reply : list (string * pyval)) :
  narkasa.markets s = [] ->
  T n (narkasa.base_url ++ "v3/api/market/markets") = http_ok (PDict reply) ->
  assoc "code" reply <> Some (PStr narkasa.code_ok) ->
  narkasa.fetch_tickers T s n = (Ok [], narkasa.init, S n).
Proof.
  intros Hm HT Hcode. unfold narkasa.fetch_tickers.
  unfold bind at 1. cbn [get_self]. rewrite Hm. cbn [negb].
  assert (E : eq_str (match assoc "code" reply with Some x => x | None => PNone end)
                narkasa.code_ok = false).
  { apply eq_str_false. destruct (assoc "code" reply); congruence. }
  unfold narkasa.load_markets.
  cbv [bind get_self put_self lift ret fetch_data].
  rewrite HT. cbn [status body http_ok Z.eqb Pos.eqb py_get].
  rewrite E. reflexivity.
Qed.

Lemma narkasa_fetch_tickers_refused_listing_witness :
  narkasa.fetch_tickers listing_refused narkasa.init 0 = (Ok [], narkasa.init, 1).
Proof.
  apply (narkasa_fetch_tickers_refused_listing listing_refused narkasa.init 0
           [("code", PStr "50000");
            ("markets", PList [narkasa_market "BTC" "USDT" "BTCUSDT"])]).
  - reflexivity.
  - reflexivity.
  - simpl. discriminate.
Defined.

(** ** toobit: the registry and the loop of [fetch_tickers] *)

(** One turn of the loop of [toobit.load_markets], whatever its outcome,
    leaves the registry as it is or assigns one entry of the shape
    [toobit_entry]. *)
Lemma toobit_register_any (entry : pyval) (s s' : toobit.self) (n n' : nat)
      (r : Result unit) :
  toobit.register entry s n = (r, s', n') ->
  n' = n /\
  (s' = s \/
   exists base quote,
     base <> EmptyString /\ quote <> EmptyString /\
     s' = {| toobit.markets :=
               dict_insert (PStr ((base ++ "/") ++ quote)) (PStr (base ++ quote))
                 (toobit.markets s) |}).
Proof.
  unfold toobit.register. cbv [bind lift get_self put_self ret].
  destruct (getitem_str entry "baseAsset") as [base|];
    [|intro H; injection H as _ <- <-; auto].
  destruct (getitem_str entry "quoteAsset") as [quote|];
    [|intro H; injection H as _ <- <-; auto].
  destruct (truthy base && truthy quote) eqn:Et; [|intro H; injection H as _ <- <-; auto].
  apply andb_true_iff in Et. destruct Et as [Eb Eq].
  destruct (py_add base quote) as [value|] eqn:E0; [|intro H; injection H as _ <- <-; auto].
  destruct (py_add base (PStr "/")) as [b|] eqn:E1; [|intro H; injection H as _ <- <-; auto].
  apply py_add_str_r in E1. destruct E1 as (sb & -> & ->).
  destruct (py_add (PStr (sb ++ "/")) quote) as [key|] eqn:E2;
    [|intro H; injection H as _ <- <-; auto].
  apply py_add_str_l in E2. destruct E2 as (sq & -> & ->).
  cbn [py_add] in E0. injection E0 as <-.
  unfold setitem. cbn [hashable].
  intro H. injection H as _ <- <-. split; [reflexivity|].
  right. exists sb, sq. repeat split.
  - intros ->. discriminate.
  - intros ->. discriminate.
Qed.

Lemma toobit_for_each_entries (l : list pyval) :
  forall s s' n n' r,
    for_each l toobit.register s n = (r, s', n') ->
    Forall toobit_entry (toobit.markets s) -> Forall toobit_entry (toobit.markets s').
Proof.
  induction l as [|e l IH]; intros s s' n n' r H Hs.
  - cbv in H. now injection H as _ <- _.
  - cbn [for_each] in H. unfold bind at 1 in H.
    assert (Hstep : forall r1 s1 n1, toobit.register e s n = (r1, s1, n1) ->
                                     Forall toobit_entry (toobit.markets s1)).
    { intros r1 s1 n1 Er. apply toobit_register_any in Er.
      destruct Er as [_ [->|(base & quote & Hb & Hq & ->)]]; [exact Hs|].
      cbn [toobit.markets]. apply insert_str_Forall; [|exact Hs].
      exists base, quote. auto. }
    destruct (toobit.register e s n) as [[[u|x] s1] n1] eqn:Er.
    + apply (IH _ _ _ _ _ H). exact (Hstep _ _ _ eq_refl).
    + injection H as _ <- _. exact (Hstep _ _ _ eq_refl).
Qed.

(** X8.  [toobit.load_markets], however it ends, keeps the shape of the
    registry: if every entry maps a key [BASE/QUOTE] to the native name
    [BASEQUOTE] with non-empty parts before the call, so does every entry
    after it.  The registry of a new adapter is empty, so this holds for
    every registry that discovery alone has written. *)
Theorem toobit_load_markets_keeps_entry_shape
        (T : Transport) (s s' : toobit.self) (n n' : nat) (r : Result unit) :
  Forall toobit_entry (toobit.markets s) ->
  toobit.load_markets T s n = (r, s', n') ->
  Forall toobit_entry (toobit.markets s').
Proof.
  intros Hs. unfold toobit.load_markets. unfold bind at 1.
  destruct (fetch_data T _ s n) as [[[data|x] s0] n0] eqn:Ef.
  - assert (s0 = s) as ->.
    { unfold fetch_data in Ef. now injection Ef as _ <- _. }
    unfold bind at 1. unfold lift at 1.
    destruct (py_get data "symbols" (PList [])) as [listed|];
      [|intro H; now injection H as _ <- _].
    unfold bind at 1. unfold lift at 1.
    destruct (py_iter listed) as [items|]; [|intro H; now injection H as _ <- _].
    intro H. exact (toobit_for_each_entries _ _ _ _ _ _ H Hs).
  - intro H. injection H as _ <- _.
    unfold fetch_data in Ef. now injection Ef as _ <- _.
Qed.

Lemma toobit_load_markets_keeps_entry_shape_witness :
  Forall toobit_entry (toobit.markets toobit.init) /\
  Forall toobit_entry
    (toobit.markets
       (snd (fst (toobit.load_markets (toobit_listing [toobit_btc; toobit_no_base])
                    toobit.init 0)))).
Proof.
  assert (H0 : Forall toobit_entry (toobit.markets toobit.init)) by constructor.
  split; [exact H0|].
  exact (toobit_load_markets_keeps_entry_shape
           (toobit_listing [toobit_btc; toobit_no_base]) toobit.init _ 0 1
           (Raise KeyError) H0 eq_refl).
Defined.

(** When [toobit.normalize_data] returns, the mapping has one entry under a
    str key. *)
Lemma toobit_normalize_single (data : pyval) (one : pydict TickerInfo) :
  toobit.normalize_data data = Ok one -> exists symbol t, one = [(PStr symbol, t)].
Proof.
  unfold toobit.normalize_data. intro H.
  destruct (getitem_0 data) as [first|]; [|discriminate]. cbn [bindR] in H.
  destruct (py_get first "s" PNone) as [native|]; [|discriminate]. cbn [bindR] in H.
  destruct (toobit._convert_symbol_to_ccxt native) as [m|] eqn:Ec; [|discriminate].
  cbn [bindR] in H.
  destruct (py_get first "c" (PInt 0)) as [l|]; [|discriminate]. cbn [bindR] in H.
  destruct (py_float l) as [lastv|]; [|discriminate]. cbn [bindR] in H.
  destruct (py_get first "v" (PInt 0)) as [b|]; [|discriminate]. cbn [bindR] in H.
  destruct (py_float b) as [basev|]; [|discriminate]. cbn [bindR] in H.
  destruct (py_get first "qv" (PInt 0)) as [q|]; [|discriminate]. cbn [bindR] in H.
  destruct (py_float q) as [quotev|]; [|discriminate]. cbn [bindR] in H.
  unfold setitem in H. destruct (hashable m); [|discriminate].
  injection H as <-.
  destruct native; try discriminate. cbn [toobit._convert_symbol_to_ccxt] in Ec.
  destruct (endswith s "USDT"); injection Ec as <-; eauto.
Qed.

Lemma toobit_fetch_each_inv (T : Transport) (values : list pyval) :
  forall result s n r s' n',
    toobit.fetch_each T values result s n = (r, s', n') ->
    s' = s /\
    forall res, r = Ok res ->
      n' = n + List.length values /\
      List.length res <= List.length result + List.length values /\
      (Forall (fun kv => is_str (fst kv) = true) result ->
       Forall (fun kv => is_str (fst kv) = true) res).
Proof.
  induction values as [|symbol rest IH]; intros result s n r s' n' H.
  - cbv [toobit.fetch_each ret] in H. injection H as <- <- <-.
    split; [reflexivity|]. intros res E. injection E as <-.
    cbn [List.length]. repeat split; auto; lia.
  - cbn [toobit.fetch_each] in H.
    unfold bind at 1 in H. unfold lift at 1 in H.
    destruct (str_add _ symbol) as [url|];
      [|injection H as <- <- _; split; [reflexivity | discriminate]].
    unfold bind at 1 in H. unfold fetch_data at 1 in H.
    destruct (if (status (T n url) =? 200)%Z then _ else _) as [data|];
      [|injection H as <- <- _; split; [reflexivity | discriminate]].
    unfold bind at 1 in H. unfold lift at 1 in H.
    destruct (toobit.normalize_data data) as [one|] eqn:En;
      [|injection H as <- <- _; split; [reflexivity | discriminate]].
    apply toobit_normalize_single in En. destruct En as (k & t & ->).
    apply IH in H. destruct H as [-> H]. split; [reflexivity|].
    intros res E. destruct (H res E) as (Hn & Hlen & Hkeys).
    unfold dict_update in Hlen, Hkeys. cbn [fold_left fst snd] in Hlen, Hkeys.
    pose proof (insert_length (PStr k) t result) as Hi.
    cbn [List.length]. repeat split; [lia | lia |].
    intros Hres. apply Hkeys.
    apply (insert_keys_Forall (fun k => is_str k = true)); [reflexivity | exact Hres].
Qed.

(** The loop of [toobit.fetch_tickers] reads the transport only at the
    ticker URLs of the values, request by request. *)
Lemma toobit_fetch_each_ext (T T' : Transport) (s : toobit.self) (values : list pyval) :
  forall result n,
    (forall i native, nth_error values i = Some (PStr native) ->
       T' (n + i) (toobit_ticker_url native) = T (n + i) (toobit_ticker_url native)) ->
    toobit.fetch_each T' values result s n = toobit.fetch_each T values result s n.
Proof.
  induction values as [|symbol rest IH]; intros result n H; [reflexivity|].
  cbn [toobit.fetch_each].
  destruct symbol as [| | | |native| |]; try reflexivity.
  pose proof (H 0 native eq_refl) as H0. rewrite Nat.add_0_r in H0.
  change (toobit_ticker_url native)
    with ((toobit.base_url ++ "quote/v1/ticker/24hr?symbol=") ++ native)%string in H0.
  cbv [bind lift str_add fetch_data]. rewrite H0.
  assert (Hrest : forall result',
             toobit.fetch_each T' rest result' s (S n)
             = toobit.fetch_each T rest result' s (S n)).
  { intro result'. apply IH. intros i native' Hn.
    replace (S n + i) with (n + S i) by lia. apply H. exact Hn. }
  destruct (status _ =? 200)%Z; [|reflexivity].
  destruct (body _) as [data|]; [|reflexivity].
  destruct (toobit.normalize_data data); [apply Hrest | reflexivity].
Qed.

(** X9.  Over a registry that is not empty, [toobit.fetch_tickers] asks for
    the ticker of each market and for nothing else: request number [i] of
    the call is the one for the ticker URL of the [i]-th native name, and
    two exchanges that answer these requests alike give the same outcome,
    whatever they answer to any other request, the listing included.  A call
    that returns has made one request per market, has left the registry as
    it was, and returns at most one entry per market, each under a str
    key. *)
Theorem toobit_fetch_tickers_one_request_per_market
        (T T' : Transport) (s : toobit.self) (n : nat) :
  toobit.markets s <> [] ->
  (forall i native,
     nth_error (dict_values (toobit.markets s)) i = Some (PStr native) ->
     T' (n + i) (toobit_ticker_url native) = T (n + i) (toobit_ticker_url native)) ->
  toobit.fetch_tickers T' s n = toobit.fetch_tickers T s n /\
  (forall result s' n',
     toobit.fetch_tickers T s n = (Ok result, s', n') ->
     s' = s /\
     n' = n + List.length (toobit.markets s) /\
     List.length result <= List.length (toobit.markets s) /\
     Forall (fun kv => is_str (fst kv) = true) result).
Proof.
  intros Hne Hagree.
  assert (Hloop : forall T0, toobit.fetch_tickers T0 s n =
                             toobit.fetch_each T0 (dict_values (toobit.markets s)) [] s n).
  { intro T0. unfold toobit.fetch_tickers.
    unfold bind at 1. cbn [get_self].
    destruct (toobit.markets s) as [|kv m] eqn:Em; [contradiction|].
    cbn [negb]. unfold bind at 1. cbn [ret].
    unfold bind at 1. cbn [get_self]. now rewrite Em. }
  split.
  - rewrite !Hloop. now apply toobit_fetch_each_ext.
  - intros result s' n' H. rewrite Hloop in H.
    apply toobit_fetch_each_inv in H. destruct H as [-> H].
    destruct (H result eq_refl) as (Hn & Hlen & Hkeys).
    unfold dict_values in Hn, Hlen. rewrite length_map in Hn, Hlen.
    cbn [List.length] in *. repeat split; try lia. apply Hkeys. constructor.
Qed.

Lemma toobit_fetch_tickers_one_request_per_market_witness :
  toobit.fetch_tickers toobit_tickers_only toobit_ready 0 =
    toobit.fetch_tickers toobit_answers toobit_ready 0 /\
  snd (fst (toobit.fetch_tickers toobit_answers toobit_ready 0)) = toobit_ready /\
  2 = 0 + List.length (toobit.markets toobit_ready).
Proof.
  assert (Hne : toobit.markets toobit_ready <> []) by discriminate.
  assert (Hagree : forall i native,
             nth_error (dict_values (toobit.markets toobit_ready)) i = Some (PStr native) ->
             toobit_tickers_only (0 + i) (toobit_ticker_url native)
             = toobit_answers (0 + i) (toobit_ticker_url native)).
  { intros [|[|i]] native Hn; simpl in Hn; try (injection Hn as <-; reflexivity).
    destruct i; discriminate. }
  destruct (toobit_fetch_tickers_one_request_per_market toobit_answers
              toobit_tickers_only toobit_ready 0 Hne Hagree) as [Hsame Hcount].
  split; [exact Hsame|].
  destruct (Hcount _ _ 2 eq_refl) as (Hs & Hn & _).
  split; [exact Hs | exact Hn].
Defined.

(** ** The pattern codecs *)








Lemma prefix_empty (s : string) : String.prefix "" s = true.
Proof. destruct s; reflexivity. Qed.

Lemma replace_underscore (s : string) : replace s "_" "/" = slash_for_underscore s.
Proof.
  unfold replace. induction s as [|c s IH]; [reflexivity|].
  cbn [replace_from slash_for_underscore String.prefix String.length Nat.sub].
  destruct (ascii_dec "_" c) as [<-|Hc].
  - rewrite prefix_empty, IH. reflexivity.
  - rewrite IH. destruct (Ascii.eqb c "_") eqn:E; [|reflexivity].
    apply Ascii.eqb_eq in E. congruence.
Qed.

Lemma slash_for_underscore_length (s : string) :
  String.length (slash_for_underscore s) = String.length s.
Proof. induction s as [|c s IH]; cbn; [reflexivity | now rewrite IH]. Qed.

Lemma slash_for_underscore_clean (s : string) :
  contains "_" (slash_for_underscore s) = false.
Proof.
  induction s as [|c s IH]; [reflexivity|].
  cbn [slash_for_underscore contains String.prefix]. rewrite IH.
  destruct (Ascii.eqb c "_") eqn:E.
  - reflexivity.
  - destruct (ascii_dec "_" c) as [<-|Hc]; [|reflexivity].
    rewrite Ascii.eqb_refl in E. discriminate.
Qed.

Lemma slash_for_underscore_idem (s : string) :
  slash_for_underscore (slash_for_underscore s) = slash_for_underscore s.
Proof.
  induction s as [|c s IH]; [reflexivity|].
  cbn [slash_for_underscore]. rewrite IH. f_equal.
  destruct (Ascii.eqb c "_") eqn:E; [reflexivity | now rewrite E].
Qed.

(** X11.  [biconomy._convert_symbol_to_ccxt] accepts every str and changes
    it character by character: the result has the length of the input and
    no ["_"], and converting the result again gives the result. *)
Theorem biconomy_convert_charwise (native : string) :
  exists symbol,
    biconomy._convert_symbol_to_ccxt (PStr native) = Ok (PStr symbol) /\
    String.length symbol = String.length native /\
    contains "_" symbol = false /\
    biconomy._convert_symbol_to_ccxt (PStr symbol) = Ok (PStr symbol).
Proof.
  exists (slash_for_underscore native).
  unfold biconomy._convert_symbol_to_ccxt. rewrite !replace_underscore.
  rewrite slash_for_underscore_idem.
  repeat split.
  - apply slash_for_underscore_length.
  - apply slash_for_underscore_clean.
Qed.

(** ** biconomy: every ticker of a bulk payload is normalised *)

Lemma biconomy_normalize_each_effect (items : list pyval) :
  forall acc result,
    biconomy.normalize_each items acc = Ok result ->
    (forall n, dict_lookup (PStr n) acc <> None -> dict_lookup (PStr n) result <> None) /\
    (forall ticker, In ticker items ->
       exists native,
         py_get ticker "symbol" (PStr "") = Ok (PStr native) /\
         dict_lookup (PStr (slash_for_underscore native)) result <> None) /\
    (Forall (fun kv => exists symbol, fst kv = PStr symbol /\ contains "_" symbol = false) acc ->
     Forall (fun kv => exists symbol, fst kv = PStr symbol /\ contains "_" symbol = false)
       result) /\
    List.length result <= List.length acc + List.length items.
Proof.
  induction items as [|ticker rest IH]; intros acc result H; cbn [biconomy.normalize_each] in H.
  - injection H as <-. repeat split; auto; [intros ? [] | lia].
  - destruct (py_get ticker "symbol" (PStr "")) as [native|] eqn:E1; [|discriminate].
    cbn [bindR] in H.
    destruct (biconomy._convert_symbol_to_ccxt native) as [symbol|] eqn:E2; [|discriminate].
    cbn [bindR] in H.
    destruct (py_get ticker "last" (PInt 0)) as [l|]; [|discriminate]. cbn [bindR] in H.
    destruct (py_float l) as [lastv|]; [|discriminate]. cbn [bindR] in H.
    destruct (py_get ticker "vol" (PInt 0)) as [b|]; [|discriminate]. cbn [bindR] in H.
    destruct (py_float b) as [basev|]; [|discriminate]. cbn [bindR] in H.
    destruct native as [| | | |native| |]; try discriminate.
    cbn [biconomy._convert_symbol_to_ccxt] in E2. injection E2 as <-.
    rewrite replace_underscore in H.
    cbn [setitem hashable bindR] in H.
    apply IH in H. destruct H as (Hkeep & Hcov & Hkeys & Hlen).
    pose proof (insert_length (PStr (slash_for_underscore native))
                  (mkTickerInfo (PFloat lastv) (PFloat basev) (PInt 0)) acc) as Hi.
    repeat split.
    + intros n Hn. apply Hkeep. now apply lookup_insert_str_present.
    + intros t [<-|Hin]; [|exact (Hcov t Hin)].
      exists native. split; [exact E1|].
      apply Hkeep. rewrite lookup_insert_str, key_eqb_str_refl. discriminate.
    + intro Hacc. apply Hkeys.
      apply (insert_keys_Forall
               (fun k => exists symbol, k = PStr symbol /\ contains "_" symbol = false));
        [|exact Hacc].
      exists (slash_for_underscore native). split; [reflexivity|].
      apply slash_for_underscore_clean.
    + cbn [List.length]. lia.
Qed.

(** X12.  A bulk payload that [biconomy.normalize_data] accepts is
    normalised whole: every ticker of the list has a str symbol and an entry
    under its converted symbol, every key of the mapping is a str without
    ["_"], and the mapping has at most one entry per ticker. *)
Theorem biconomy_normalize_covers_every_ticker
        (payload : list (string * pyval)) (items : list pyval)
        (result : pydict TickerInfo) :
  assoc "ticker" payload = Some (PList items) ->
  biconomy.normalize_data (PDict payload) = Ok result ->
  (forall ticker, In ticker items ->
     exists native,
       py_get ticker "symbol" (PStr "") = Ok (PStr native) /\
       dict_lookup (PStr (slash_for_underscore native)) result <> None) /\
  Forall (fun kv => exists symbol, fst kv = PStr symbol /\ contains "_" symbol = false)
    result /\
  List.length result <= List.length items.
Proof.
  intros Hp H. unfold biconomy.normalize_data in H. cbn [py_get bindR] in H.
  rewrite Hp in H. cbn [py_iter bindR] in H.
  apply biconomy_normalize_each_effect in H. destruct H as (_ & Hcov & Hkeys & Hlen).
  split; [exact Hcov|]. split; [apply Hkeys; constructor | exact Hlen].
Qed.

Lemma biconomy_normalize_covers_every_ticker_witness :
  exists result,
    biconomy.normalize_data (PDict [("ticker", PList bulk_two)]) = Ok result /\
    dict_lookup (PStr "ETH/BTC") result <> None /\
    List.length result <= 2.
Proof.
  eexists. split; [reflexivity|].
  pose proof (biconomy_normalize_covers_every_ticker
                [("ticker", PList bulk_two)] bulk_two _ eq_refl eq_refl) as (Hcov & _ & Hlen).
  split; [|exact Hlen].
  destruct (Hcov (PDict [("symbol", PStr "ETH_BTC"); ("last", PStr "4026")]))
    as (native & Hn & Hl).
  - right. left. reflexivity.
  - injection Hn as <-. exact Hl.
Defined.

(** ** narkasa: discovery does not roll back *)

Lemma for_each_app {S A} (body : A -> M S unit) (l1 l2 : list A) (s : S) (n : nat) :
  for_each (l1 ++ l2) body s n =
    match for_each l1 body s n with
    | (Ok _, s1, n1) => for_each l2 body s1 n1
    | (Raise e, s1, n1) => (Raise e, s1, n1)
    end.
Proof.
  revert s n. induction l1 as [|x l1 IH]; intros s n; [reflexivity|].
  cbn [app for_each]. unfold bind.
  destruct (body x s n) as [[[u|e] s1] n1]; [apply IH | reflexivity].
Qed.

(** X13.  When the listing of narkasa has an entry that is not a JSON
    object, [load_markets] raises [AttributeError] at that entry and what
    the entries before it registered stays: the registry is the one that
    discovery of the listing cut before that entry leaves. *)
Theorem narkasa_load_markets_no_rollback
        (T T' : Transport) (s s1 : narkasa.self) (n n1 : nat)
        (reply reply' : list (string * pyval)) (pre post : list pyval) (bad : pyval) :
  T n (narkasa.base_url ++ "v3/api/market/markets") = http_ok (PDict reply) ->
  T' n (narkasa.base_url ++ "v3/api/market/markets") = http_ok (PDict reply') ->
  assoc "code" reply = Some (PStr narkasa.code_ok) ->
  assoc "code" reply' = Some (PStr narkasa.code_ok) ->
  assoc "markets" reply = Some (PList (pre ++ bad :: post)) ->
  assoc "markets" reply' = Some (PList pre) ->
  (forall d, bad <> PDict d) ->
  narkasa.load_markets T' s n = (Ok tt, s1, n1) ->
  narkasa.load_markets T s n = (Raise AttributeError, s1, n1).
Proof.
  intros HT HT' Hc Hc' Hm Hm' Hbad.
  unfold narkasa.load_markets.
  cbv [bind get_self put_self lift ret fetch_data].
  rewrite HT, HT'. cbn [status body http_ok Z.eqb Pos.eqb py_get].
  rewrite Hc, Hc', Hm, Hm'. cbn [eq_str].
  unfold narkasa.code_ok at 1 2 3 4. cbn [String.eqb Ascii.eqb Bool.eqb negb py_iter].
  cbn [narkasa.markets narkasa.symbols].
  intro Hpre. rewrite for_each_app, Hpre.
  cbn [for_each]. unfold bind at 1.
  destruct bad; try reflexivity. exfalso. exact (Hbad d eq_refl).
Qed.

Lemma narkasa_load_markets_no_rollback_witness :
  narkasa.load_markets listing_broken narkasa_ready 0 =
    (Raise AttributeError,
     {| narkasa.markets := [(PStr "BTC/USDT", PStr "BTCUSDT")];
        narkasa.symbols := [(PStr "BTCUSDT", PStr "BTC/USDT")] |},
     1).
Proof.
  apply (narkasa_load_markets_no_rollback listing_broken listing_cut narkasa_ready _ 0 1
           [("code", PStr "00000"); ("markets", PList listing_broken_entries)]
           [("code", PStr "00000");
            ("markets", PList [narkasa_market "BTC" "USDT" "BTCUSDT"])]
           [narkasa_market "BTC" "USDT" "BTCUSDT"]
           [narkasa_market "ETH" "USDT" "ETHUSDT"] (PStr "LTCUSDT"));
    try reflexivity.
  intros d. discriminate.
Defined.

(** X14.  For narkasa an entry of the listing without [firstSymbol] or
    without [secondSymbol] changes nothing: discovery of a listing that has
    such an entry anywhere ends as discovery of the listing without it, with
    the same outcome and the same registry. *)
Theorem narkasa_load_markets_ignores_incomplete
        (T T' : Transport) (s : narkasa.self) (n : nat)
        (reply reply' : list (string * pyval)) (pre post : list pyval)
        (entry : list (string * pyval)) :
  T n (narkasa.base_url ++ "v3/api/market/markets") = http_ok (PDict reply) ->
  T' n (narkasa.base_url ++ "v3/api/market/markets") = http_ok (PDict reply') ->
  assoc "code" reply = Some (PStr narkasa.code_ok) ->
  assoc "code" reply' = Some (PStr narkasa.code_ok) ->
  assoc "markets" reply = Some (PList (pre ++ PDict entry :: post)) ->
  assoc "markets" reply' = Some (PList (pre ++ post)) ->
  assoc "firstSymbol" entry = None \/ assoc "secondSymbol" entry = None ->
  narkasa.load_markets T s n = narkasa.load_markets T' s n.
Proof.
  intros HT HT' Hc Hc' Hm Hm' Hgap.
  unfold narkasa.load_markets.
  cbv [bind get_self put_self lift ret fetch_data].
  rewrite HT, HT'. cbn [status body http_ok Z.eqb Pos.eqb py_get].
  rewrite Hc, Hc', Hm, Hm'. cbn [eq_str].
  unfold narkasa.code_ok at 1 2 3 4. cbn [String.eqb Ascii.eqb Bool.eqb negb py_iter].
  cbn [narkasa.markets narkasa.symbols].
  rewrite !for_each_app.
  destruct (for_each pre narkasa.register _ _) as [[[u|e] s1] n1]; [|reflexivity].
  cbn [for_each]. unfold bind at 1.
  now rewrite (narkasa_register_skips_incomplete entry s1 n1 Hgap).
Qed.

Lemma narkasa_load_markets_ignores_incomplete_witness :
  narkasa.load_markets listing_gap narkasa_ready 0 =
  narkasa.load_markets listing_plain narkasa_ready 0.
Proof.
  apply (narkasa_load_markets_ignores_incomplete listing_gap listing_plain narkasa_ready 0
           listing_gap_body listing_plain_body
           [narkasa_market "BTC" "USDT" "BTCUSDT"] [narkasa_market "ETH" "USDT" "ETHUSDT"]
           entry_no_quote);
    try reflexivity.
  right. reflexivity.
Defined.

(** X15.  [biconomy.fetch_tickers] makes exactly one request and never
    assigns to the adapter.  It returns what [normalize_data] returns for
    the reply, also when that is an exception, and raises when the request
    failed. *)
Theorem biconomy_fetch_tickers_single_request
        (T : Transport) (s : biconomy.self) (n : nat) :
  exists r,
    biconomy.fetch_tickers T s n = (r, s, S n) /\
    (forall data, T n (biconomy.base_url ++ "api/v1/tickers") = http_ok data ->
       r = biconomy.normalize_data data) /\
    (failed (T n (biconomy.base_url ++ "api/v1/tickers")) = true -> raises r = true).
Proof.
  unfold biconomy.fetch_tickers, failed. cbv [bind lift fetch_data].
  destruct (T n (biconomy.base_url ++ "api/v1/tickers")) as [st bd]. cbn [status body].
  destruct (st =? 200)%Z eqn:Es; cbn [negb orb].
  - destruct bd as [data|].
    + eexists. split; [reflexivity|]. split; [|discriminate].
      intros data0 H. unfold http_ok in H. now injection H as _ <-.
    + eexists. split; [reflexivity|]. split; [|reflexivity].
      intros data0 H. discriminate.
  - eexists. split; [reflexivity|]. split; [|reflexivity].
    intros data0 H. unfold http_ok in H. injection H as -> _. discriminate.
Qed.
